(** * convert2rhel: the EFI/GRUB bootloader reconfiguration actions

    A shallow embedding of
    [convert2rhel/actions/conversion/set_efi_config.py]: the five actions
    [NewDefaultEfiBin], [EfibootmgrUtilityInstalled], [CopyGrubFiles],
    [RemoveEfiCentos] and [ReplaceEfiBootEntry].

    An action is run against a tree of paths and a [Host], which stands for
    what the module imports and does not define: the constants and
    procedures of [grub], [systeminfo.system_info.id], and the answers of the
    operating system. What an action does is read off the calls it makes, in
    order: [set_result], [add_message], [shutil.copy2] and [os.rmdir].

    Left out: [logger] calls, which have no effect on what an action
    reports, and [super().run()], which belongs to the base class
    [actions.Action]. *)

From Stdlib Require Import ZArith Ascii String.
From stdpp Require Import base decidable option list strings gmap fin_maps pretty.

Local Open Scope string_scope.
Local Open Scope Z_scope.
Local Open Scope list_scope.

(** ** Paths ([os.path]) *)

Module os_path.

Definition sep : ascii := "/"%char.

Definition startswith_sep (p : string) : bool :=
  match p with
  | String c _ => Ascii.eqb c sep
  | EmptyString => false
  end.

Fixpoint endswith_sep (p : string) : bool :=
  match p with
  | EmptyString => false
  | String c EmptyString => Ascii.eqb c sep
  | String _ rest => endswith_sep rest
  end.

(** [posixpath.join(a, b)]: an absolute [b] replaces [a]; otherwise the two
    are glued with exactly one separator unless [a] is empty or already
    ends with one. *)
Definition join (a b : string) : string :=
  if startswith_sep b then b
  else if String.eqb a "" || endswith_sep a then a +:+ b
  else a +:+ String sep b.

(** [posixpath.basename(p)] is [p[p.rfind('/') + 1:]]; [after] is the text
    that follows the last separator met so far. *)
Fixpoint basename_from (after p : string) : string :=
  match p with
  | EmptyString => after
  | String c rest =>
      if Ascii.eqb c sep then basename_from rest rest
      else basename_from after rest
  end.

Definition basename (p : string) : string := basename_from p p.

Fixpoint has_sep (p : string) : bool :=
  match p with
  | EmptyString => false
  | String c rest => Ascii.eqb c sep || has_sep rest
  end.

(** The text every entry of directory [p] starts with. *)
Definition as_dir (p : string) : string :=
  if String.eqb p "" || endswith_sep p then p else p +:+ String sep "".

(** [p[:p.rfind('/') + 1]]: the text up to and including the last
    separator. *)
Fixpoint head (p : string) : string :=
  match p with
  | EmptyString => EmptyString
  | String c rest =>
      if has_sep rest then String c (head rest)
      else if Ascii.eqb c sep then String c EmptyString
      else EmptyString
  end.

(** [p.rstrip('/')] *)
Fixpoint rstrip_sep (p : string) : string :=
  match p with
  | EmptyString => EmptyString
  | String c rest =>
      match rstrip_sep rest with
      | EmptyString => if Ascii.eqb c sep then EmptyString else String c EmptyString
      | kept => String c kept
      end
  end.

(** [posixpath.dirname(p)]: the head without its trailing separators,
    unless it is made of separators only. *)
Definition dirname (p : string) : string :=
  match rstrip_sep (head p) with
  | EmptyString => head p
  | kept => kept
  end.

End os_path.

(** ** The host *)

(** What a path names. *)
Inductive node : Type :=
| File (data : string)
| Dir.

Abbreviation fs := (gmap string node).

(** [OSError] (and [IOError] on Python 2) as the actions read it. *)
Record OSError : Type := mkOSError {
  errno : Z;
  strerror : string;
  filename : option string
}.

Definition ENOENT (p : string) : OSError := mkOSError 2 "No such file or directory" (Some p).
Definition EACCES (p : string) : OSError := mkOSError 13 "Permission denied" (Some p).
Definition ENOTDIR (p : string) : OSError := mkOSError 20 "Not a directory" (Some p).
Definition EISDIR (p : string) : OSError := mkOSError 21 "Is a directory" (Some p).
Definition ENOTEMPTY (p : string) : OSError := mkOSError 39 "Directory not empty" (Some p).

(** [str(err)] of an [OSError]: [[Errno n] text], followed by the quoted
    file name when there is one. *)
Definition OSError_str (err : OSError) : string :=
  "[Errno " +:+ pretty (errno err) +:+ "] " +:+ strerror err +:+
  match filename err with
  | Some p => ": '" +:+ p +:+ "'"
  | None => ""
  end.

(** What the system may answer a copy with besides what follows from the
    tree: it refuses before anything is written, or it fails once the
    destination has been created, leaving [written] in it. *)
Inductive copy_failure : Type :=
| Refused (err : OSError)
| Interrupted (err : OSError) (written : string).

(** How a call into the [grub] module ends. *)
Inductive call_outcome : Type :=
| Succeeds
| RaisesBootloaderError (message : string)
| RaisesOther (what : string).

(** The collaborators of the actions that are not part of this module: the
    constants and procedures of [grub], [systeminfo.system_info.id], and the
    faults the operating system may answer a call with besides those that
    follow from the tree itself (permissions, a full or read-only disk). *)
Record Host : Type := mkHost {
  system_info_id : string;
  is_efi : bool;
  DEFAULT_INSTALLED_EFIBIN_FILENAMES : list string;
  CENTOS_EFIDIR_CANONICAL_PATH : string;
  RHEL_EFIDIR_CANONICAL_PATH : string;
  replace_efi_boot_entry : fs -> call_outcome * fs;
  copy_fault : string -> string -> option copy_failure;
  rmdir_fault : string -> option OSError
}.

(** [os.path.exists]: the empty path never exists. *)
Definition os_path_exists (d : fs) (p : string) : bool :=
  match p with
  | EmptyString => false
  | _ => match d !! p with Some _ => true | None => false end
  end.

Definition is_directory (d : fs) (p : string) : bool :=
  match d !! p with
  | Some Dir => true
  | _ => false
  end.

(** The directory that is to hold [p] exists. A directory may be spelled
    with or without its trailing separator; a bare name lies in the current
    directory. *)
Definition parent_is_dir (d : fs) (p : string) : bool :=
  match os_path.head p with
  | EmptyString => true
  | hd => is_directory d hd || is_directory d (os_path.dirname p)
  end.

(** What should be the directory that is to hold [p] is a regular file. *)
Definition parent_is_file (d : fs) (p : string) : bool :=
  match d !! os_path.dirname p with
  | Some (File _) => true
  | _ => false
  end.

(** [shutil.copy2(src, dst)] on the tree, as the exception raised, if any,
    and the tree left. The source is opened first and must be a regular
    file; a destination that is a directory receives the file under its own
    name; the file is created in a directory that must exist. A copy that
    fails after the destination was created leaves what was written. *)
Definition shutil_copy2 (h : Host) (d : fs) (src dst : string) : option OSError * fs :=
  match copy_fault h src dst with
  | Some (Refused err) => (Some err, d)
  | answer =>
      match d !! src with
      | None => (Some (ENOENT src), d)
      | Some Dir => (Some (EISDIR src), d)
      | Some (File data) =>
          let target :=
            match d !! dst with
            | Some Dir => os_path.join dst (os_path.basename src)
            | _ => dst
            end in
          if parent_is_dir d target then
            match answer with
            | Some (Interrupted err written) => (Some err, <[target := File written]> d)
            | _ => (None, <[target := File data]> d)
            end
          else if parent_is_file d target then (Some (ENOTDIR target), d)
          else (Some (ENOENT target), d)
      end
  end.

(** The entries of directory [p]: the paths strictly below it. *)
Definition entry_of (p k : string) : bool :=
  String.prefix (os_path.as_dir p) k && negb (String.eqb k (os_path.as_dir p)).

Definition listdir (d : fs) (p : string) : list string :=
  List.filter (entry_of p) (map fst (map_to_list d)).

(** [os.rmdir(p)]: removes a directory, and only an empty one. *)
Definition os_rmdir (h : Host) (d : fs) (p : string) : OSError + fs :=
  match d !! p with
  | None => inl (ENOENT p)
  | Some (File _) => inl (ENOTDIR p)
  | Some Dir =>
      match listdir d p with
      | _ :: _ => inl (ENOTEMPTY p)
      | [] =>
          match rmdir_fault h p with
          | Some err => inl err
          | None => inr (delete p d)
          end
      end
  end.

(** ** What an action reports *)

(** The keyword arguments of [set_result] and [add_message]; an argument
    that is not passed is [None]. *)
Record report : Type := mkReport {
  level : string;
  id : string;
  title : string;
  description : string;
  diagnosis : option string;
  remediations : option string
}.

(** The calls of an action, in the order it makes them. *)
Inductive event : Type :=
| Copy2 (src dst : string) (raised : option OSError)
| Rmdir (path : string) (raised : option OSError)
| SetResult (r : report)
| AddMessage (r : report).

(** How [run] ends: it returns, or an exception it does not catch escapes. *)
Inductive completion : Type :=
| Returned
| Raised (what : string).

(** ** The action monad: the tree is threaded, the calls are collected *)

Definition Act (A : Type) : Type := fs -> A * fs * list event.

Definition ret {A} (a : A) : Act A := fun d => (a, d, []).

Definition bind {A B} (m : Act A) (k : A -> Act B) : Act B :=
  fun d =>
    let '(a, d1, t1) := m d in
    let '(b, d2, t2) := k a d1 in
    (b, d2, t1 ++ t2).

Declare Scope act_scope.
Delimit Scope act_scope with act.
Notation "x <- m ;; k" := (bind m (fun x => k))
  (at level 100, m at next level, right associativity) : act_scope.
Notation "m ;;; k" := (bind m (fun _ => k))
  (at level 100, right associativity) : act_scope.
Local Open Scope act_scope.

(** A pure query of the tree. *)
Definition query {A} (f : fs -> A) : Act A := fun d => (f d, d, []).

Definition emit (e : event) : Act unit := fun d => (tt, d, [e]).

Definition set_result (r : report) : Act unit := emit (SetResult r).
Definition add_message (r : report) : Act unit := emit (AddMessage r).

(** [try: shutil.copy2(src, dst)]: the exception, if one is raised. *)
Definition try_copy2 (h : Host) (src dst : string) : Act (option OSError) :=
  fun d =>
    let '(raised, d') := shutil_copy2 h d src dst in
    (raised, d', [Copy2 src dst raised]).

(** [try: os.rmdir(p)]. *)
Definition try_rmdir (h : Host) (p : string) : Act (option OSError) :=
  fun d =>
    match os_rmdir h d p with
    | inl err => (Some err, d, [Rmdir p (Some err)])
    | inr d' => (None, d', [Rmdir p None])
    end.

Definition call_replace_efi_boot_entry (h : Host) : Act call_outcome :=
  fun d => let '(o, d') := replace_efi_boot_entry h d in (o, d', []).

Definition tree_after {A} (r : A * fs * list event) : fs := snd (fst r).
Definition calls {A} (r : A * fs * list event) : list event := snd r.
Definition ending {A} (r : A * fs * list event) : A := fst (fst r).

(** ** The actions *)

Inductive action : Type :=
| NewDefaultEfiBin
| EfibootmgrUtilityInstalled
| CopyGrubFiles
| RemoveEfiCentos
| ReplaceEfiBootEntry.

(** The classes in the order the module defines them. *)
Definition pipeline : list action :=
  [NewDefaultEfiBin; EfibootmgrUtilityInstalled; CopyGrubFiles; RemoveEfiCentos;
   ReplaceEfiBootEntry].

(** The [id] attribute of each class. *)
Definition action_id (a : action) : string :=
  match a with
  | NewDefaultEfiBin => "NEW_DEFAULT_EFI_BIN"
  | EfibootmgrUtilityInstalled => "EFIBOOTMGR_UTILITY_INSTALLED"
  | CopyGrubFiles => "COPY_GRUB_FILES"
  | RemoveEfiCentos => "REMOVE_EFI_CENTOS"
  | ReplaceEfiBootEntry => "REPLACE_EFI_BOOT_ENTRY"
  end.

(** The [dependencies] attribute as the class body sets it; [None] for a
    class whose body does not set it. *)
Definition declared_dependencies (a : action) : option (list string) :=
  match a with
  | NewDefaultEfiBin => None
  | EfibootmgrUtilityInstalled => Some ["NEW_DEFAULT_EFI_BIN"]
  | CopyGrubFiles => None
  | RemoveEfiCentos => Some ["COPY_GRUB_FILES"]
  | ReplaceEfiBootEntry => Some ["REMOVE_EFI_CENTOS"]
  end.

Definition declares_dependency (a : action) (on : string) : Prop :=
  exists deps, declared_dependencies a = Some deps /\ In on deps.

(** Every action after the first declares the one before it. *)
Definition each_declares_its_predecessor : Prop :=
  forall (i : nat) (before after : action),
    pipeline !! i = Some before -> pipeline !! S i = Some after ->
    declares_dependency after (action_id before).

(** Python's [not x] for a value that is [None] or a string. *)
Definition py_not (x : option string) : bool :=
  match x with
  | None => true
  | Some s => String.eqb s ""
  end.

(** *** NewDefaultEfiBin *)

(** The [for filename in grub.DEFAULT_INSTALLED_EFIBIN_FILENAMES] loop; the
    result is [(new_default_efibin, missing_binaries)] when the loop ends. *)
Fixpoint scan_efibins (h : Host) (d : fs) (filenames : list string)
    (missing_binaries : list string) : option string * list string :=
  match filenames with
  | [] => (None, missing_binaries)
  | filename :: rest =>
      let efi_path := os_path.join (RHEL_EFIDIR_CANONICAL_PATH h) filename in
      if os_path_exists d efi_path
      then (Some efi_path, missing_binaries)
      else scan_efibins h d rest (missing_binaries ++ [efi_path])
  end.

Definition not_found_rhel_uefi_binaries (h : Host) (missing_binaries : list string) : report :=
  {| level := "ERROR";
     id := "NOT_FOUND_RHEL_UEFI_BINARIES";
     title := "RHEL UEFI binaries not found";
     description := "None of the expected RHEL UEFI binaries exist.";
     diagnosis := Some ("Bootloader couldn't be migrated due to missing RHEL EFI binaries: "
                        +:+ String.concat ", " missing_binaries +:+ " .");
     remediations := Some ("Verify the bootloader configuration as follows and reboot the system."
                        +:+ " Ensure that `grubenv` and `grub.cfg` files"
                        +:+ " are present in the " +:+ RHEL_EFIDIR_CANONICAL_PATH h
                        +:+ " directory. Verify that `efibootmgr -v`"
                        +:+ " shows a bootloader entry for Red Hat Enterprise Linux"
                        +:+ " that points to to '\EFI\redhat\shimx64.efi'.") |}.

Definition NewDefaultEfiBin_run (h : Host) : Act completion :=
  if negb (is_efi h) then ret Returned
  else
    found <- query (fun d => scan_efibins h d (DEFAULT_INSTALLED_EFIBIN_FILENAMES h) []) ;;
    let '(new_default_efibin, missing_binaries) := found in
    if py_not new_default_efibin
    then set_result (not_found_rhel_uefi_binaries h missing_binaries) ;;; ret Returned
    else ret Returned.

(** *** EfibootmgrUtilityInstalled *)

Definition newline : string := String (ascii_of_nat 10) "".

Definition not_installed_efibootmgr_utility : report :=
  {| level := "ERROR";
     id := "NOT_INSTALLED_EFIBOOTMGR_UTILITY";
     title := "UEFI boot manager utility not found";
     description := "Couldn't find the UEFI boot manager which is required for us to install and verify a RHEL boot entry.";
     diagnosis := None;
     remediations := Some ("Install the efibootmgr utility using the following command:"
                        +:+ newline +:+ newline +:+ " 1. yum install efibootmgr") |}.

Definition EfibootmgrUtilityInstalled_run (h : Host) : Act completion :=
  present <- query (fun d => os_path_exists d "/usr/sbin/efibootmgr") ;;
  if negb present
  then set_result not_installed_efibootmgr_utility ;;; ret Returned
  else ret Returned.

(** *** CopyGrubFiles *)

Definition src_files (h : Host) : list string :=
  map (os_path.join (CENTOS_EFIDIR_CANONICAL_PATH h)) ["grubenv"; "grub.cfg"; "user.cfg"].

Definition required (h : Host) : list string := take 2 (src_files h).

(** [[filename for filename in src_files
      if filename in required and not os.path.exists(filename)]] *)
Definition missing_files (h : Host) (d : fs) : list string :=
  List.filter
    (fun filename => bool_decide (filename ∈ required h) && negb (os_path_exists d filename))
    (src_files h).

Definition unable_to_find_required_file_for_grub_config (missing : list string) : report :=
  {| level := "ERROR";
     id := "UNABLE_TO_FIND_REQUIRED_FILE_FOR_GRUB_CONFIG";
     title := "Couldn't find system GRUB config";
     description := "Couldn't find one of the GRUB config files in the current system which is required for configuring UEFI for RHEL: "
                    +:+ String.concat ", " missing;
     diagnosis := None;
     remediations := None |}.

Definition grub_files_not_copied_to_boot_directory (err : OSError) : report :=
  {| level := "ERROR";
     id := "GRUB_FILES_NOT_COPIED_TO_BOOT_DIRECTORY";
     title := "GRUB files have not been copied to boot directory";
     description := "I/O error(" +:+ pretty (errno err) +:+ "): " +:+ strerror err
                    +:+ " Some GRUB files have not been copied to /boot/efi/EFI/redhat.";
     diagnosis := None;
     remediations := None |}.

Definition dst_of (h : Host) (src_file : string) : string :=
  os_path.join (RHEL_EFIDIR_CANONICAL_PATH h) (os_path.basename src_file).

(** The [for src_file in src_files] loop. *)
Fixpoint copy_loop (h : Host) (files : list string) : Act unit :=
  match files with
  | [] => ret tt
  | src_file :: rest =>
      let dst_file := dst_of h src_file in
      present <- query (fun d => os_path_exists d dst_file) ;;
      if present then copy_loop h rest
      else
        raised <- try_copy2 h src_file dst_file ;;
        match raised with
        | Some err =>
            set_result (grub_files_not_copied_to_boot_directory err) ;;;
            copy_loop h rest
        | None => copy_loop h rest
        end
  end.

Definition CopyGrubFiles_run (h : Host) : Act completion :=
  if negb (String.eqb (system_info_id h) "centos") then ret Returned
  else
    any_present <- query (fun d => existsb (os_path_exists d) (src_files h)) ;;
    if negb any_present then
      missing <- query (missing_files h) ;;
      set_result (unable_to_find_required_file_for_grub_config missing) ;;;
      ret Returned
    else
      copy_loop h (src_files h) ;;;
      ret Returned.

(** *** RemoveEfiCentos *)

Definition warning_message (h : Host) (err : OSError) : string :=
  "Failed to remove the " +:+ CENTOS_EFIDIR_CANONICAL_PATH h
  +:+ " directory as files still exist. During conversion we make sure to copy over files needed to their RHEL counterpart. However, some files we didn't expect likely exist in the directory that needs human oversight. Make sure that the files within the directory is taken care of and proceed with deleting the directory manually after conversion. We received error: '"
  +:+ OSError_str err +:+ "'.".

Definition not_removed_centos_uefi_directory (h : Host) (err : OSError) : report :=
  {| level := "WARNING";
     id := "NOT_REMOVED_CENTOS_UEFI_DIRECTORY";
     title := "CentOS UEFI directory couldn't be removed";
     description := warning_message h err;
     diagnosis := None;
     remediations := None |}.

Definition RemoveEfiCentos_run (h : Host) : Act completion :=
  if negb (String.eqb (system_info_id h) "centos") then ret Returned
  else
    raised <- try_rmdir h (CENTOS_EFIDIR_CANONICAL_PATH h) ;;
    match raised with
    | Some err => add_message (not_removed_centos_uefi_directory h err) ;;; ret Returned
    | None => ret Returned
    end.

(** *** ReplaceEfiBootEntry *)

Definition failed_to_replace_uefi_boot_entry (message : string) : report :=
  {| level := "ERROR";
     id := "FAILED_TO_REPLACE_UEFI_BOOT_ENTRY";
     title := "Failed to replace UEFI boot entry to RHEL";
     description := "As the current UEFI bootloader entry could be invalid or missing we need to ensure that a RHEL UEFI entry exists. The UEFI boot entry could not be replaced due to the following error: '"
                    +:+ message +:+ "'";
     diagnosis := None;
     remediations := None |}.

Definition ReplaceEfiBootEntry_run (h : Host) : Act completion :=
  outcome <- call_replace_efi_boot_entry h ;;
  match outcome with
  | Succeeds => ret Returned
  | RaisesBootloaderError message =>
      set_result (failed_to_replace_uefi_boot_entry message) ;;; ret Returned
  | RaisesOther what => ret (Raised what)
  end.

Definition run (a : action) (h : Host) : Act completion :=
  match a with
  | NewDefaultEfiBin => NewDefaultEfiBin_run h
  | EfibootmgrUtilityInstalled => EfibootmgrUtilityInstalled_run h
  | CopyGrubFiles => CopyGrubFiles_run h
  | RemoveEfiCentos => RemoveEfiCentos_run h
  | ReplaceEfiBootEntry => ReplaceEfiBootEntry_run h
  end.

(** ** Reading a list of calls *)

Definition results_set (t : list event) : list report :=
  omap (fun e => match e with SetResult r => Some r | _ => None end) t.

Definition messages_added (t : list event) : list report :=
  omap (fun e => match e with AddMessage r => Some r | _ => None end) t.

(** The exceptions raised by the attempted copies, in order. *)
Definition copy_errors (t : list event) : list OSError :=
  omap (fun e => match e with Copy2 _ _ (Some err) => Some err | _ => None end) t.

Definition copies_attempted (t : list event) : list (string * string) :=
  omap (fun e => match e with Copy2 src dst _ => Some (src, dst) | _ => None end) t.

(** The calls made after the first copy that raised. *)
Fixpoint after_first_failure (t : list event) : list event :=
  match t with
  | [] => []
  | Copy2 _ _ (Some _) :: rest => rest
  | _ :: rest => after_first_failure rest
  end.

(** ** Two hosts to run the actions on *)

Definition no_copy_fault (src dst : string) : option copy_failure := None.
Definition no_rmdir_fault (p : string) : option OSError := None.

Definition centos_host : Host :=
  {| system_info_id := "centos";
     is_efi := true;
     DEFAULT_INSTALLED_EFIBIN_FILENAMES := ["shimx64.efi"; "grubx64.efi"];
     CENTOS_EFIDIR_CANONICAL_PATH := "/boot/efi/EFI/centos/";
     RHEL_EFIDIR_CANONICAL_PATH := "/boot/efi/EFI/redhat/";
     replace_efi_boot_entry := fun d => (Succeeds, d);
     copy_fault := no_copy_fault;
     rmdir_fault := no_rmdir_fault |}.

(** Of the three GRUB files only [grubenv] is in [centos/]; [redhat/] holds
    the shim alone. *)
Definition only_grubenv : fs :=
  list_to_map
    [("/boot/efi/EFI/centos/", Dir);
     ("/boot/efi/EFI/centos/grubenv", File "saved_entry=0");
     ("/boot/efi/EFI/redhat/", Dir);
     ("/boot/efi/EFI/redhat/shimx64.efi", File "shim")].

(** Neither directory holds a GRUB file. *)
Definition no_grub_files : fs :=
  list_to_map
    [("/boot/efi/EFI/centos/", Dir);
     ("/boot/efi/EFI/redhat/", Dir);
     ("/boot/efi/EFI/redhat/shimx64.efi", File "shim")].

(** All three GRUB files are in [centos/]. *)
Definition all_three : fs :=
  list_to_map
    [("/boot/efi/EFI/centos/", Dir);
     ("/boot/efi/EFI/centos/grubenv", File "saved_entry=0");
     ("/boot/efi/EFI/centos/grub.cfg", File "set timeout=5");
     ("/boot/efi/EFI/centos/user.cfg", File "GRUB2_PASSWORD=x");
     ("/boot/efi/EFI/redhat/", Dir);
     ("/boot/efi/EFI/redhat/shimx64.efi", File "shim")].

(** As [all_three], with a [grubenv] of its own already in [redhat/]. *)
Definition grubenv_in_place : fs :=
  <["/boot/efi/EFI/redhat/grubenv" := File "saved_entry=1"]> all_three.

(** A centos host on which copying [grubenv] is denied. *)
Definition denied_host : Host :=
  {| system_info_id := "centos";
     is_efi := true;
     DEFAULT_INSTALLED_EFIBIN_FILENAMES := ["shimx64.efi"; "grubx64.efi"];
     CENTOS_EFIDIR_CANONICAL_PATH := "/boot/efi/EFI/centos/";
     RHEL_EFIDIR_CANONICAL_PATH := "/boot/efi/EFI/redhat/";
     replace_efi_boot_entry := fun d => (Succeeds, d);
     copy_fault := fun src dst =>
       if String.eqb src "/boot/efi/EFI/centos/grubenv"
       then Some (Refused (EACCES dst)) else None;
     rmdir_fault := no_rmdir_fault |}.

(** An Oracle Linux host booted in BIOS mode. *)
Definition oracle_bios_host : Host :=
  {| system_info_id := "ol";
     is_efi := false;
     DEFAULT_INSTALLED_EFIBIN_FILENAMES := ["shimx64.efi"; "grubx64.efi"];
     CENTOS_EFIDIR_CANONICAL_PATH := "/boot/efi/EFI/centos/";
     RHEL_EFIDIR_CANONICAL_PATH := "/boot/efi/EFI/redhat/";
     replace_efi_boot_entry := fun d => (Succeeds, d);
     copy_fault := no_copy_fault;
     rmdir_fault := no_rmdir_fault |}.


(** [centos/] is there and holds nothing. *)
Definition empty_centos_dir : fs :=
  list_to_map
    [("/boot/efi/EFI/centos/", Dir);
     ("/boot/efi/EFI/redhat/", Dir);
     ("/boot/efi/EFI/redhat/grubenv", File "saved_entry=0");
     ("/boot/efi/EFI/redhat/grub.cfg", File "set timeout=5");
     ("/boot/efi/EFI/redhat/shimx64.efi", File "shim")].

(** The same host booted in the other mode. *)
Definition with_is_efi (b : bool) (h : Host) : Host :=
  {| system_info_id := system_info_id h;
     is_efi := b;
     DEFAULT_INSTALLED_EFIBIN_FILENAMES := DEFAULT_INSTALLED_EFIBIN_FILENAMES h;
     CENTOS_EFIDIR_CANONICAL_PATH := CENTOS_EFIDIR_CANONICAL_PATH h;
     RHEL_EFIDIR_CANONICAL_PATH := RHEL_EFIDIR_CANONICAL_PATH h;
     replace_efi_boot_entry := replace_efi_boot_entry h;
     copy_fault := copy_fault h;
     rmdir_fault := rmdir_fault h |}.

(** ** Facts about paths *)

Section paths.
Import os_path.

Lemma app_cons (c : ascii) (a b : string) : String c a +:+ b = String c (a +:+ b).
Proof. reflexivity. Qed.

Lemma app_empty_l (b : string) : "" +:+ b = b.
Proof. reflexivity. Qed.

Lemma app_assoc_string (a b c : string) : (a +:+ b) +:+ c = a +:+ (b +:+ c).
Proof.
  induction a as [|x a IH]; [reflexivity |].
  rewrite !app_cons. now rewrite IH.
Qed.

Lemma app_cancel_l (a x y : string) : a +:+ x = a +:+ y -> x = y.
Proof.
  induction a as [|c a IH]; [now rewrite !app_empty_l |].
  rewrite !app_cons. intros E. injection E. exact IH.
Qed.

Lemma app_nonempty_r (a x : string) : x <> "" -> a +:+ x <> "".
Proof. destruct a; [now rewrite app_empty_l | rewrite app_cons; discriminate]. Qed.

(** A relative name is glued to the directory text of [a]. *)
Lemma join_relative (a f : string) :
  startswith_sep f = false -> join a f = as_dir a +:+ f.
Proof.
  intros Hf. unfold join, as_dir. rewrite Hf.
  destruct (String.eqb a "" || endswith_sep a); [reflexivity |].
  now rewrite app_assoc_string.
Qed.

Lemma join_inj (a f g : string) :
  startswith_sep f = false -> startswith_sep g = false ->
  join a f = join a g -> f = g.
Proof.
  intros Hf Hg. rewrite !join_relative by assumption. apply app_cancel_l.
Qed.

Lemma join_nonempty (a f : string) : f <> "" -> join a f <> "".
Proof.
  intros Hf. unfold join. destruct (startswith_sep f); [exact Hf |].
  destruct (String.eqb a "" || endswith_sep a).
  - now apply app_nonempty_r.
  - now apply app_nonempty_r.
Qed.

Lemma basename_from_no_sep (after p : string) :
  has_sep p = false -> basename_from after p = after.
Proof.
  revert after. induction p as [|c p IH]; simpl; intros after H; [reflexivity |].
  apply orb_false_iff in H as [Hc Hp]. rewrite Hc. now apply IH.
Qed.

Lemma basename_from_after_sep (after a f : string) :
  endswith_sep a = true -> has_sep f = false ->
  basename_from after (a +:+ f) = f.
Proof.
  intros Ha Hf. revert after Ha.
  induction a as [|c a IH]; intros after Ha; [discriminate |].
  rewrite app_cons. destruct a as [|c' a'].
  - simpl in Ha. rewrite app_empty_l. simpl. rewrite Ha.
    now apply basename_from_no_sep.
  - assert (Ha' : endswith_sep (String c' a') = true) by exact Ha.
    cbn [basename_from]. destruct (Ascii.eqb c sep); now apply IH.
Qed.

Lemma endswith_sep_snoc (a : string) : endswith_sep (a +:+ String sep "") = true.
Proof.
  induction a as [|c a IH]; [reflexivity |].
  rewrite app_cons. simpl. destruct (a +:+ String sep "") eqn:E; [| exact IH].
  destruct a; discriminate.
Qed.

(** [basename] undoes [join] on a plain file name. *)
Lemma basename_join (a f : string) :
  has_sep f = false -> basename (join a f) = f.
Proof.
  intros Hf.
  assert (Hs : startswith_sep f = false).
  { destruct f; [reflexivity |]. simpl in *. now apply orb_false_iff in Hf as [? _]. }
  unfold basename, join. rewrite Hs.
  destruct (String.eqb a "") eqn:Ea.
  - apply String.eqb_eq in Ea. subst a. simpl. rewrite app_empty_l.
    now apply basename_from_no_sep.
  - simpl. destruct (endswith_sep a) eqn:Ee.
    + now apply basename_from_after_sep.
    + change (a +:+ String sep f) with (a +:+ (String sep "" +:+ f)).
      rewrite <- app_assoc_string.
      apply basename_from_after_sep; [apply endswith_sep_snoc | exact Hf].
Qed.

End paths.

(** ** Reading an outcome *)

Lemma calls_eq {A} (a : A) (d : fs) (t : list event) : calls (a, d, t) = t.
Proof. reflexivity. Qed.

Lemma tree_after_eq {A} (a : A) (d : fs) (t : list event) : tree_after (a, d, t) = d.
Proof. reflexivity. Qed.

Lemma ending_eq {A} (a : A) (d : fs) (t : list event) : ending (a, d, t) = a.
Proof. reflexivity. Qed.

(** ** The dependency declarations *)

(** C3 (the code departs from it). The claim: each action after the first
    declares the one before it in pipeline order as a dependency.
    [EfibootmgrUtilityInstalled], [RemoveEfiCentos] and [ReplaceEfiBootEntry]
    do; the class body of [CopyGrubFiles] sets no [dependencies] at all, so
    it does not declare [EFIBOOTMGR_UTILITY_INSTALLED]. *)
Theorem CopyGrubFiles_declares_no_dependency :
  pipeline !! 1%nat = Some EfibootmgrUtilityInstalled /\
  pipeline !! 2%nat = Some CopyGrubFiles /\
  declared_dependencies CopyGrubFiles = None /\
  ~ declares_dependency CopyGrubFiles (action_id EfibootmgrUtilityInstalled) /\
  ~ each_declares_its_predecessor /\
  declares_dependency EfibootmgrUtilityInstalled (action_id NewDefaultEfiBin) /\
  declares_dependency RemoveEfiCentos (action_id CopyGrubFiles) /\
  declares_dependency ReplaceEfiBootEntry (action_id RemoveEfiCentos).
Proof.
  assert (Hnone : ~ declares_dependency CopyGrubFiles (action_id EfibootmgrUtilityInstalled)).
  { intros (deps & Hdeps & _). discriminate Hdeps. }
  repeat split.
  - exact Hnone.
  - intros Hall. apply Hnone.
    apply (Hall 1%nat EfibootmgrUtilityInstalled CopyGrubFiles); reflexivity.
  - exists ["NEW_DEFAULT_EFI_BIN"]. split; [reflexivity | now left].
  - exists ["COPY_GRUB_FILES"]. split; [reflexivity | now left].
  - exists ["REMOVE_EFI_CENTOS"]. split; [reflexivity | now left].
Qed.

(** ** NewDefaultEfiBin *)

Section new_default_efi_bin.
Variable h : Host.
Variable d : fs.

Local Abbreviation rhel := (os_path.join (RHEL_EFIDIR_CANONICAL_PATH h)).
Local Abbreviation absent := (fun f => os_path_exists d (rhel f) = false).

Lemma scan_efibins_first (pre post : list string) (f : string) (acc : list string) :
  Forall absent pre -> os_path_exists d (rhel f) = true ->
  scan_efibins h d (pre ++ f :: post) acc = (Some (rhel f), acc ++ map rhel pre).
Proof.
  intros Hpre Hf. revert acc.
  induction Hpre as [|g pre Hg _ IH]; intros acc; simpl.
  - rewrite Hf. now rewrite app_nil_r.
  - rewrite Hg. rewrite IH. now rewrite <- app_assoc.
Qed.

Lemma scan_efibins_none (l acc : list string) :
  Forall absent l -> scan_efibins h d l acc = (None, acc ++ map rhel l).
Proof.
  intros Hl. revert acc.
  induction Hl as [|g l Hg _ IH]; intros acc; simpl.
  - now rewrite app_nil_r.
  - rewrite Hg. rewrite IH. now rewrite <- app_assoc.
Qed.

(** The loop ends without a binary only when every candidate is absent,
    and a binary it ends with exists. *)
Lemma scan_efibins_sound (l acc : list string) :
  match scan_efibins h d l acc with
  | (Some p, _) => os_path_exists d p = true
  | (None, _) => Forall absent l
  end.
Proof.
  revert acc. induction l as [|g l IH]; intros acc; simpl; [constructor |].
  destruct (os_path_exists d (rhel g)) eqn:Hg; [exact Hg |].
  specialize (IH (acc ++ [rhel g])).
  destruct (scan_efibins h d l (acc ++ [rhel g])) as [[p|] m]; [exact IH |].
  now constructor.
Qed.

Lemma exists_not_falsy (p : string) : os_path_exists d p = true -> py_not (Some p) = false.
Proof. destruct p; [discriminate | reflexivity]. Qed.

Lemma NewDefaultEfiBin_run_efi :
  is_efi h = true ->
  NewDefaultEfiBin_run h d =
  (Returned, d,
   match scan_efibins h d (DEFAULT_INSTALLED_EFIBIN_FILENAMES h) [] with
   | (Some _, _) => []
   | (None, missing_binaries) =>
       [SetResult (not_found_rhel_uefi_binaries h missing_binaries)]
   end).
Proof.
  intros He. unfold NewDefaultEfiBin_run, bind, query, set_result, emit, ret.
  rewrite He. simpl.
  pose proof (scan_efibins_sound (DEFAULT_INSTALLED_EFIBIN_FILENAMES h) []) as Hs.
  destruct (scan_efibins h d (DEFAULT_INSTALLED_EFIBIN_FILENAMES h) []) as [[p|] m].
  - now rewrite (exists_not_falsy p Hs).
  - reflexivity.
Qed.

(** C5. On an EFI system the candidates are scanned in order and the scan
    stops at the first one that exists, with nothing recorded; an Error
    [NOT_FOUND_RHEL_UEFI_BINARIES] is recorded if and only if no candidate
    exists, and its diagnosis then lists every candidate path in order. *)
Theorem NewDefaultEfiBin_first_match_or_error :
  is_efi h = true ->
  let names := DEFAULT_INSTALLED_EFIBIN_FILENAMES h in
  let outcome := run NewDefaultEfiBin h d in
  (forall pre f post,
      names = pre ++ f :: post -> Forall absent pre ->
      os_path_exists d (rhel f) = true ->
      scan_efibins h d names [] = (Some (rhel f), map rhel pre) /\
      calls outcome = []) /\
  (Forall absent names <->
   exists r, In r (results_set (calls outcome)) /\
             level r = "ERROR" /\ id r = "NOT_FOUND_RHEL_UEFI_BINARIES") /\
  (Forall absent names ->
   calls outcome = [SetResult (not_found_rhel_uefi_binaries h (map rhel names))] /\
   diagnosis (not_found_rhel_uefi_binaries h (map rhel names)) =
     Some ("Bootloader couldn't be migrated due to missing RHEL EFI binaries: "
           +:+ String.concat ", " (map rhel names) +:+ " .")) /\
  tree_after outcome = d /\ ending outcome = Returned.
Proof.
  intros He names outcome. subst outcome. unfold run.
  rewrite (NewDefaultEfiBin_run_efi He). fold names.
  unfold calls, tree_after, ending. simpl.
  split; [| split; [| split; [| split; reflexivity]]].
  - intros pre f post Hn Hpre Hf.
    rewrite Hn, (scan_efibins_first pre post f [] Hpre Hf). split; reflexivity.
  - split.
    + intros Hall. rewrite (scan_efibins_none names [] Hall). simpl.
      eexists. split; [left; reflexivity | split; reflexivity].
    + intros (r & Hin & _).
      pose proof (scan_efibins_sound names []) as Hs.
      destruct (scan_efibins h d names []) as [[p|] m]; [destruct Hin | exact Hs].
  - intros Hall. rewrite (scan_efibins_none names [] Hall). simpl.
    split; reflexivity.
Qed.

End new_default_efi_bin.

Lemma NewDefaultEfiBin_first_match_or_error_witness :
  is_efi centos_host = true /\
  scan_efibins centos_host only_grubenv (DEFAULT_INSTALLED_EFIBIN_FILENAMES centos_host) []
    = (Some "/boot/efi/EFI/redhat/shimx64.efi", []) /\
  calls (run NewDefaultEfiBin centos_host only_grubenv) = [].
Proof.
  split; [reflexivity |].
  destruct (NewDefaultEfiBin_first_match_or_error centos_host only_grubenv eq_refl)
    as (Hfirst & _).
  apply (Hfirst [] "shimx64.efi" ["grubx64.efi"]).
  - reflexivity.
  - constructor.
  - vm_compute. reflexivity.
Defined.

(** ** ReplaceEfiBootEntry *)

(** C8. [FAILED_TO_REPLACE_UEFI_BOOT_ENTRY] is recorded, with the message of
    the bootloader error in its description, if and only if
    [grub.replace_efi_boot_entry] raises a bootloader error; when the
    procedure succeeds nothing is recorded at all. *)
Theorem ReplaceEfiBootEntry_error_iff_bootloader_error (h : Host) (d : fs) :
  let outcome := run ReplaceEfiBootEntry h d in
  match fst (replace_efi_boot_entry h d) with
  | RaisesBootloaderError message =>
      calls outcome = [SetResult (failed_to_replace_uefi_boot_entry message)] /\
      (exists before after,
          description (failed_to_replace_uefi_boot_entry message)
          = before +:+ message +:+ after) /\
      ending outcome = Returned
  | Succeeds => calls outcome = [] /\ ending outcome = Returned
  | RaisesOther what => calls outcome = [] /\ ending outcome = Raised what
  end /\
  ((exists r, In r (results_set (calls outcome)) /\
              level r = "ERROR" /\ id r = "FAILED_TO_REPLACE_UEFI_BOOT_ENTRY") <->
   (exists message, fst (replace_efi_boot_entry h d) = RaisesBootloaderError message)) /\
  tree_after outcome = snd (replace_efi_boot_entry h d).
Proof.
  unfold run, ReplaceEfiBootEntry_run, call_replace_efi_boot_entry, bind, calls,
    ending, tree_after, set_result, emit, ret.
  destruct (replace_efi_boot_entry h d) as [[|message|what] d']; simpl.
  - split; [split; reflexivity |]. split; [| reflexivity].
    split; [intros (r & [] & _) | intros (m & Hm); discriminate Hm].
  - split.
    + split; [reflexivity |]. split; [| reflexivity].
      eexists _, "'". reflexivity.
    + split; [| reflexivity]. split.
      * intros _. now exists message.
      * intros _. eexists. split; [left; reflexivity | split; reflexivity].
  - split; [split; reflexivity |]. split; [| reflexivity].
    split; [intros (r & [] & _) | intros (m & Hm); discriminate Hm].
Qed.

(** ** RemoveEfiCentos *)

Section remove_efi_centos.
Variable h : Host.
Variable d : fs.

Local Abbreviation centos_dir := (CENTOS_EFIDIR_CANONICAL_PATH h).

Lemma RemoveEfiCentos_run_other_system :
  system_info_id h <> "centos" -> RemoveEfiCentos_run h d = (Returned, d, []).
Proof.
  intros Hid. unfold RemoveEfiCentos_run.
  apply String.eqb_neq in Hid. now rewrite Hid.
Qed.

Lemma RemoveEfiCentos_run_centos :
  system_info_id h = "centos" ->
  RemoveEfiCentos_run h d =
  match os_rmdir h d centos_dir with
  | inl err => (Returned, d, [Rmdir centos_dir (Some err);
                              AddMessage (not_removed_centos_uefi_directory h err)])
  | inr d' => (Returned, d', [Rmdir centos_dir None])
  end.
Proof.
  intros Hid. unfold RemoveEfiCentos_run, bind, try_rmdir, add_message, emit, ret.
  rewrite Hid. simpl.
  destruct (os_rmdir h d centos_dir); reflexivity.
Qed.

(** [os.rmdir] only ever succeeds on an empty directory, and then removes
    that one path. *)
Lemma os_rmdir_success (p : string) (d' : fs) :
  os_rmdir h d p = inr d' ->
  d !! p = Some Dir /\ listdir d p = [] /\ d' = delete p d.
Proof.
  unfold os_rmdir. destruct (d !! p) as [[data|]|]; try discriminate.
  destruct (listdir d p); try discriminate.
  destruct (rmdir_fault h p); try discriminate.
  intros [= <-]. auto.
Qed.

Lemma os_rmdir_not_empty (p : string) :
  listdir d p <> [] -> exists err, os_rmdir h d p = inl err.
Proof.
  intros Hne. unfold os_rmdir.
  destruct (d !! p) as [[data|]|]; [eauto | | eauto].
  destruct (listdir d p); [contradiction | eauto].
Qed.

End remove_efi_centos.

(** C7. On a centos system, when removing the source EFI directory raises,
    the action adds the Warning [NOT_REMOVED_CENTOS_UEFI_DIRECTORY] whose
    description includes the text of the error, records no result, and
    returns. *)
Theorem RemoveEfiCentos_failure_is_a_warning (h : Host) (d : fs) (err : OSError) :
  system_info_id h = "centos" ->
  os_rmdir h d (CENTOS_EFIDIR_CANONICAL_PATH h) = inl err ->
  let outcome := run RemoveEfiCentos h d in
  messages_added (calls outcome) = [not_removed_centos_uefi_directory h err] /\
  level (not_removed_centos_uefi_directory h err) = "WARNING" /\
  id (not_removed_centos_uefi_directory h err) = "NOT_REMOVED_CENTOS_UEFI_DIRECTORY" /\
  (exists before after,
      description (not_removed_centos_uefi_directory h err)
      = before +:+ OSError_str err +:+ after) /\
  results_set (calls outcome) = [] /\
  ending outcome = Returned.
Proof.
  intros Hid Hrm outcome. subst outcome. unfold run.
  rewrite (RemoveEfiCentos_run_centos h d Hid), Hrm.
  unfold calls, ending. simpl.
  repeat split.
  eexists _, "'.". unfold warning_message.
  rewrite <- !app_assoc_string. reflexivity.
Qed.

Lemma RemoveEfiCentos_failure_is_a_warning_witness :
  system_info_id centos_host = "centos" /\
  os_rmdir centos_host only_grubenv "/boot/efi/EFI/centos/"
    = inl (ENOTEMPTY "/boot/efi/EFI/centos/") /\
  results_set (calls (run RemoveEfiCentos centos_host only_grubenv)) = [].
Proof.
  split; [reflexivity |]. split; [vm_compute; reflexivity |].
  apply (RemoveEfiCentos_failure_is_a_warning centos_host only_grubenv
           (ENOTEMPTY "/boot/efi/EFI/centos/")).
  - reflexivity.
  - vm_compute. reflexivity.
Defined.

(** C10, as it is stated, fails on the code: on a system other than centos
    the action returns at once, so a source EFI directory that still has an
    entry is left as it is without any warning. *)
Lemma other_system_gets_no_warning :
  system_info_id oracle_bios_host <> "centos" /\
  listdir all_three "/boot/efi/EFI/centos/" <> [] /\
  tree_after (run RemoveEfiCentos oracle_bios_host all_three) = all_three /\
  ~ (exists r, In r (messages_added (calls (run RemoveEfiCentos oracle_bios_host all_three))) /\
               level r = "WARNING").
Proof.
  split; [discriminate |]. split; [vm_compute; discriminate |].
  split; [reflexivity |].
  intros (r & Hin & _). vm_compute in Hin. exact Hin.
Qed.

(** C10 (as the code has it). [RemoveEfiCentos] never deletes a file: the
    only thing it asks of the tree is one [os.rmdir] of the source EFI
    directory, which succeeds only on an empty directory; while that
    directory has an entry the tree is left as it was, and the action then
    ends with the Warning [NOT_REMOVED_CENTOS_UEFI_DIRECTORY] on a centos
    system and without any call on another system. *)
Theorem RemoveEfiCentos_never_deletes_a_file (h : Host) (d : fs) :
  let centos_dir := CENTOS_EFIDIR_CANONICAL_PATH h in
  let outcome := run RemoveEfiCentos h d in
  (forall p data, d !! p = Some (File data) -> tree_after outcome !! p = Some (File data)) /\
  (forall e, In e (calls outcome) ->
             (exists raised, e = Rmdir centos_dir raised) \/ (exists r, e = AddMessage r)) /\
  (In (Rmdir centos_dir None) (calls outcome) ->
   d !! centos_dir = Some Dir /\ listdir d centos_dir = [] /\
   tree_after outcome = delete centos_dir d) /\
  (listdir d centos_dir <> [] ->
   tree_after outcome = d /\
   results_set (calls outcome) = [] /\
   ending outcome = Returned /\
   (system_info_id h = "centos" ->
    exists err, calls outcome =
                [Rmdir centos_dir (Some err);
                 AddMessage (not_removed_centos_uefi_directory h err)] /\
                level (not_removed_centos_uefi_directory h err) = "WARNING" /\
                id (not_removed_centos_uefi_directory h err)
                  = "NOT_REMOVED_CENTOS_UEFI_DIRECTORY") /\
   (system_info_id h <> "centos" -> calls outcome = [])).
Proof.
  intros centos_dir outcome. subst outcome. unfold run.
  destruct (String.eqb_spec (system_info_id h) "centos") as [Hid | Hid].
  - rewrite (RemoveEfiCentos_run_centos h d Hid). fold centos_dir.
    destruct (os_rmdir h d centos_dir) as [err | d'] eqn:Hrm;
      rewrite ?calls_eq, ?tree_after_eq, ?ending_eq.
    + split; [auto |]. split.
      { intros e [<- | [<- | []]]; eauto. }
      split; [intros [H | [H | []]]; discriminate H |].
      intros _. split; [reflexivity |]. split; [reflexivity |]. split; [reflexivity |].
      split; [| intros Hother; now destruct Hother].
      intros _. exists err. repeat split.
    + apply os_rmdir_success in Hrm as (Hdir & Hempty & ->).
      split.
      { intros p data Hp. rewrite lookup_delete_ne; [exact Hp |].
        intros <-. rewrite Hdir in Hp. discriminate Hp. }
      split; [intros e [<- | []]; eauto |].
      split; [auto |].
      intros Hne. now destruct Hne.
  - rewrite (RemoveEfiCentos_run_other_system h d Hid).
    rewrite ?calls_eq, ?tree_after_eq, ?ending_eq.
    split; [auto |]. split; [intros e [] |]. split; [intros [] |].
    intros _. split; [reflexivity |]. split; [reflexivity |]. split; [reflexivity |].
    split; [intros Hc; now destruct Hid | reflexivity].
Qed.

Lemma RemoveEfiCentos_never_deletes_a_file_witness :
  system_info_id centos_host = "centos" /\
  listdir only_grubenv "/boot/efi/EFI/centos/" = ["/boot/efi/EFI/centos/grubenv"] /\
  tree_after (run RemoveEfiCentos centos_host only_grubenv) = only_grubenv /\
  map level (messages_added (calls (run RemoveEfiCentos centos_host only_grubenv)))
    = ["WARNING"].
Proof.
  split; [reflexivity |]. split; [vm_compute; reflexivity |].
  destruct (RemoveEfiCentos_never_deletes_a_file centos_host only_grubenv)
    as (_ & _ & _ & Hkept).
  destruct Hkept as (Htree & _ & _ & Hwarn & _); [vm_compute; discriminate |].
  split; [exact Htree |].
  destruct (Hwarn eq_refl) as (err & Hcalls & _).
  rewrite Hcalls. reflexivity.
Defined.

(** ** CopyGrubFiles *)

Section copy_grub_files.
Variable h : Host.

Local Abbreviation centos := (os_path.join (CENTOS_EFIDIR_CANONICAL_PATH h)).
Local Abbreviation rhel := (os_path.join (RHEL_EFIDIR_CANONICAL_PATH h)).

Lemma src_files_eq : src_files h = [centos "grubenv"; centos "grub.cfg"; centos "user.cfg"].
Proof. reflexivity. Qed.

Lemma required_eq : required h = [centos "grubenv"; centos "grub.cfg"].
Proof. reflexivity. Qed.

Lemma dst_of_centos (name : string) :
  os_path.has_sep name = false -> dst_of h (centos name) = rhel name.
Proof. intros Hn. unfold dst_of. now rewrite basename_join. Qed.

Lemma os_path_absent_lookup (d : fs) (p : string) :
  os_path_exists d p = false -> p <> "" -> d !! p = None.
Proof.
  unfold os_path_exists. destruct p; [congruence |].
  destruct (d !! String a p); [discriminate | reflexivity].
Qed.

Lemma os_path_exists_insert_ne (d : fs) (p q : string) (n : node) :
  p <> q -> os_path_exists (<[q := n]> d) p = os_path_exists d p.
Proof.
  intros Hne. unfold os_path_exists. destruct p; [reflexivity |].
  now rewrite lookup_insert_ne by congruence.
Qed.

Lemma os_path_exists_same (d d' : fs) (p : string) :
  d' !! p = d !! p -> os_path_exists d' p = os_path_exists d p.
Proof. intros E. unfold os_path_exists. now rewrite E. Qed.

(** A copy onto an absent destination changes at most that path, and when
    it raises nothing the destination holds the data of the source. *)
Lemma shutil_copy2_fresh (d d1 : fs) (src dst : string) (raised : option OSError) :
  os_path_exists d dst = false -> dst <> "" ->
  shutil_copy2 h d src dst = (raised, d1) ->
  (d1 = d \/ exists written, d1 = <[dst := File written]> d) /\
  (raised = None ->
   exists data, d !! src = Some (File data) /\ d1 = <[dst := File data]> d).
Proof.
  intros Habs Hne. unfold shutil_copy2. rewrite (os_path_absent_lookup d dst Habs Hne).
  destruct (copy_fault h src dst) as [[err | err written]|];
    destruct (d !! src) as [[data|]|]; try destruct (parent_is_dir d dst);
    try destruct (parent_is_file d dst);
    intros [= <- <-]; split; eauto; discriminate.
Qed.

(** Such a copy leaves every other path as it was. *)
Lemma copy_step_keeps (d d1 : fs) (src dst p : string) (raised : option OSError) :
  os_path_exists d dst = false -> dst <> "" ->
  shutil_copy2 h d src dst = (raised, d1) ->
  p <> dst -> d1 !! p = d !! p.
Proof.
  intros Habs Hne Hcp Hp.
  destruct (proj1 (shutil_copy2_fresh d d1 src dst raised Habs Hne Hcp)) as [-> | (w & ->)];
    [reflexivity |].
  now apply lookup_insert_ne.
Qed.

Lemma copy_step_exists (d d1 : fs) (src dst p : string) (raised : option OSError) :
  os_path_exists d dst = false -> dst <> "" ->
  shutil_copy2 h d src dst = (raised, d1) ->
  os_path_exists d p = true -> os_path_exists d1 p = true.
Proof.
  intros Habs Hne Hcp Hp.
  rewrite (os_path_exists_same d d1 p); [exact Hp |].
  apply (copy_step_keeps d d1 src dst p raised Habs Hne Hcp).
  intros ->. congruence.
Qed.

(** One turn of the loop. *)
Lemma copy_loop_cons (src : string) (rest : list string) (d : fs) :
  copy_loop h (src :: rest) d =
  if os_path_exists d (dst_of h src) then copy_loop h rest d
  else match shutil_copy2 h d src (dst_of h src) with
       | (Some err, d1) =>
           (tt, tree_after (copy_loop h rest d1),
            Copy2 src (dst_of h src) (Some err)
            :: SetResult (grub_files_not_copied_to_boot_directory err)
            :: calls (copy_loop h rest d1))
       | (None, d1) =>
           (tt, tree_after (copy_loop h rest d1),
            Copy2 src (dst_of h src) None :: calls (copy_loop h rest d1))
       end.
Proof.
  cbn [copy_loop]. unfold bind, query, try_copy2, set_result, emit, tree_after, calls.
  destruct (os_path_exists d (dst_of h src)); simpl.
  - destruct (copy_loop h rest d) as [[[] d'] t]. reflexivity.
  - destruct (shutil_copy2 h d src (dst_of h src)) as [[err|] d1]; simpl.
    + destruct (copy_loop h rest d1) as [[[] d'] t]. reflexivity.
    + destruct (copy_loop h rest d1) as [[[] d'] t]. reflexivity.
Qed.

(** Every result the loop sets is the report of a copy that raised, in the
    order the copies raised; the loop adds no message. *)
Lemma copy_loop_results (l : list string) (d : fs) :
  results_set (calls (copy_loop h l d)) =
  map grub_files_not_copied_to_boot_directory (copy_errors (calls (copy_loop h l d))) /\
  messages_added (calls (copy_loop h l d)) = [].
Proof.
  revert d. induction l as [|src rest IH]; intros d; [split; reflexivity |].
  rewrite copy_loop_cons.
  destruct (os_path_exists d (dst_of h src)); [apply IH |].
  destruct (shutil_copy2 h d src (dst_of h src)) as [[err|] d1];
    destruct (IH d1) as [Hr Hm]; rewrite !calls_eq.
  - change (grub_files_not_copied_to_boot_directory err
            :: results_set (calls (copy_loop h rest d1))
            = grub_files_not_copied_to_boot_directory err
              :: map grub_files_not_copied_to_boot_directory
                   (copy_errors (calls (copy_loop h rest d1)))
            /\ messages_added (calls (copy_loop h rest d1)) = []).
    rewrite Hr, Hm. split; reflexivity.
  - change (results_set (calls (copy_loop h rest d1))
            = map grub_files_not_copied_to_boot_directory
                (copy_errors (calls (copy_loop h rest d1)))
            /\ messages_added (calls (copy_loop h rest d1)) = []).
    split; assumption.
Qed.

Lemma copy_loop_errors_bounded (l : list string) (d : fs) :
  (length (copy_errors (calls (copy_loop h l d))) <= length l)%nat.
Proof.
  revert d. induction l as [|src rest IH]; intros d; [apply Nat.le_refl |].
  rewrite copy_loop_cons.
  destruct (os_path_exists d (dst_of h src)).
  - specialize (IH d). simpl. lia.
  - destruct (shutil_copy2 h d src (dst_of h src)) as [[err|] d1]; specialize (IH d1).
    + change (S (length (copy_errors (calls (copy_loop h rest d1)))) <= S (length rest))%nat.
      lia.
    + change (length (copy_errors (calls (copy_loop h rest d1))) <= S (length rest))%nat.
      lia.
Qed.

(** A path that exists when the loop starts is not written by it, and no
    copy is attempted onto it. *)
Lemma copy_loop_frame (l : list string) (d : fs) (p : string) :
  Forall (fun s => dst_of h s <> "") l ->
  os_path_exists d p = true ->
  tree_after (copy_loop h l d) !! p = d !! p /\
  (forall src dst raised, In (Copy2 src dst raised) (calls (copy_loop h l d)) -> dst <> p).
Proof.
  intros Hl. revert d. induction Hl as [|src rest Hsrc _ IH]; intros d Hp.
  - split; [reflexivity | intros ? ? ? []].
  - rewrite copy_loop_cons.
    destruct (os_path_exists d (dst_of h src)) eqn:Hdst; [now apply IH |].
    assert (Hne : dst_of h src <> p) by (intros E; rewrite E in Hdst; congruence).
    destruct (shutil_copy2 h d src (dst_of h src)) as [raised d1] eqn:Hcp.
    pose proof (copy_step_exists d d1 src _ p raised Hdst Hsrc Hcp Hp) as Hp1.
    pose proof (copy_step_keeps d d1 src _ p raised Hdst Hsrc Hcp (not_eq_sym Hne)) as Hkeep.
    destruct (IH d1 Hp1) as [Htree Hcalls].
    destruct raised as [err|]; rewrite tree_after_eq, calls_eq; (split; [congruence |]).
    + intros s t r [E | [E | Hin]]; [now injection E as _ <- _ | discriminate E |].
      now apply (Hcalls s t r).
    + intros s t r [E | Hin]; [now injection E as _ <- _ |].
      now apply (Hcalls s t r).
Qed.

(** A candidate whose destination exists adds nothing to the loop: the
    loop runs as if the candidate were not in the list. *)
Lemma copy_loop_skips (l : list string) (d : fs) (src : string) :
  Forall (fun s => dst_of h s <> "") l ->
  os_path_exists d (dst_of h src) = true ->
  copy_loop h l d = copy_loop h (List.filter (fun s => negb (String.eqb s src)) l) d.
Proof.
  intros Hl. revert d. induction Hl as [|s rest Hs _ IH]; intros d Hp; [reflexivity |].
  cbn [List.filter]. destruct (String.eqb_spec s src) as [-> | Hne]; cbn [negb].
  - rewrite copy_loop_cons, Hp. now apply IH.
  - rewrite !copy_loop_cons.
    destruct (os_path_exists d (dst_of h s)) eqn:Hdst; [now apply IH |].
    destruct (shutil_copy2 h d s (dst_of h s)) as [raised d1] eqn:Hcp.
    pose proof (copy_step_exists d d1 s _ _ raised Hdst Hs Hcp Hp) as Hp1.
    now rewrite <- (IH d1 Hp1).
Qed.

(** Which copies the loop attempts: one for each candidate whose destination
    is absent when the loop starts, whatever the earlier copies did. *)
Lemma copy_loop_attempts (l : list string) (d : fs) :
  Forall (fun s => dst_of h s <> "") l ->
  NoDup (map (dst_of h) l) ->
  copies_attempted (calls (copy_loop h l d)) =
  map (fun s => (s, dst_of h s))
      (List.filter (fun s => negb (os_path_exists d (dst_of h s))) l).
Proof.
  intros Hl. revert d. induction Hl as [|s rest Hs Hrest IH]; intros d Hnd; [reflexivity |].
  cbn [map] in Hnd. apply NoDup_cons in Hnd as [Hnotin Hnd].
  rewrite copy_loop_cons. cbn [List.filter].
  destruct (os_path_exists d (dst_of h s)) eqn:Hdst; cbn [negb]; [now apply IH |].
  destruct (shutil_copy2 h d s (dst_of h s)) as [raised d1] eqn:Hcp.
  assert (Hsame : List.filter (fun s' => negb (os_path_exists d1 (dst_of h s'))) rest
                  = List.filter (fun s' => negb (os_path_exists d (dst_of h s'))) rest).
  { apply List.filter_ext_in. intros s' Hin. f_equal.
    apply os_path_exists_same.
    apply (copy_step_keeps d d1 s _ _ raised Hdst Hs Hcp).
    intros E. apply Hnotin. rewrite <- E. apply list_elem_of_In. now apply in_map. }
  destruct raised as [err|]; rewrite calls_eq.
  - change (((s, dst_of h s) :: copies_attempted (calls (copy_loop h rest d1))) =
            (s, dst_of h s) :: map (fun s => (s, dst_of h s))
              (List.filter (fun s => negb (os_path_exists d (dst_of h s))) rest)).
    now rewrite (IH d1 Hnd), Hsame.
  - change (((s, dst_of h s) :: copies_attempted (calls (copy_loop h rest d1))) =
            (s, dst_of h s) :: map (fun s => (s, dst_of h s))
              (List.filter (fun s => negb (os_path_exists d (dst_of h s))) rest)).
    now rewrite (IH d1 Hnd), Hsame.
Qed.

(** *** The three candidates *)

Lemma centos_inj (a b : string) :
  os_path.startswith_sep a = false -> os_path.startswith_sep b = false ->
  centos a = centos b -> a = b.
Proof. apply join_inj. Qed.

Lemma rhel_inj (a b : string) :
  os_path.startswith_sep a = false -> os_path.startswith_sep b = false ->
  rhel a = rhel b -> a = b.
Proof. apply join_inj. Qed.

Lemma src_files_dsts :
  map (dst_of h) (src_files h) = [rhel "grubenv"; rhel "grub.cfg"; rhel "user.cfg"].
Proof.
  rewrite src_files_eq. cbn [map]. now rewrite !dst_of_centos by reflexivity.
Qed.

Lemma src_files_dst_nonempty : Forall (fun s => dst_of h s <> "") (src_files h).
Proof.
  rewrite src_files_eq.
  repeat constructor; rewrite dst_of_centos by reflexivity;
    apply join_nonempty; discriminate.
Qed.

Lemma src_files_dst_NoDup : NoDup (map (dst_of h) (src_files h)).
Proof.
  rewrite src_files_dsts.
  repeat (apply NoDup_cons; split); try apply NoDup_nil_2;
    rewrite ?elem_of_cons, ?elem_of_nil;
    intros Hin; repeat destruct Hin as [Hin | Hin]; try exact Hin;
    apply rhel_inj in Hin; try reflexivity; discriminate Hin.
Qed.

Lemma existsb_false_Forall {A} (f : A -> bool) (l : list A) :
  existsb f l = false <-> Forall (fun x => f x = false) l.
Proof.
  induction l as [|x l IH]; simpl.
  - split; [constructor | reflexivity].
  - rewrite orb_false_iff, IH. split.
    + intros [Hx Hl]. now constructor.
    + intros Hall. apply Forall_cons in Hall. exact Hall.
Qed.

(** With none of the sources present, the files reported missing are the
    required ones. *)
Lemma missing_files_none_present (d : fs) :
  Forall (fun f => os_path_exists d f = false) (src_files h) ->
  missing_files h d = [centos "grubenv"; centos "grub.cfg"].
Proof.
  rewrite src_files_eq. intros Hall.
  apply Forall_cons in Hall as [H1 Hall]. apply Forall_cons in Hall as [H2 Hall].
  apply Forall_cons in Hall as [H3 _].
  unfold missing_files. rewrite src_files_eq, required_eq. cbn [List.filter].
  rewrite H1, H2, H3.
  rewrite (bool_decide_eq_true_2 (centos "grubenv" ∈ _)) by (left).
  rewrite (bool_decide_eq_true_2 (centos "grub.cfg" ∈ _)) by (right; left).
  rewrite (bool_decide_eq_false_2 (centos "user.cfg" ∈ _)); [reflexivity |].
  rewrite !elem_of_cons, elem_of_nil.
  intros [Hin | [Hin | []]]; apply centos_inj in Hin; try reflexivity; discriminate Hin.
Qed.

Lemma CopyGrubFiles_run_other_system (d : fs) :
  system_info_id h <> "centos" -> CopyGrubFiles_run h d = (Returned, d, []).
Proof.
  intros Hid. unfold CopyGrubFiles_run.
  apply String.eqb_neq in Hid. now rewrite Hid.
Qed.

Lemma CopyGrubFiles_run_centos (d : fs) :
  system_info_id h = "centos" ->
  CopyGrubFiles_run h d =
  if existsb (os_path_exists d) (src_files h)
  then (Returned, tree_after (copy_loop h (src_files h) d),
        calls (copy_loop h (src_files h) d))
  else (Returned, d,
        [SetResult (unable_to_find_required_file_for_grub_config (missing_files h d))]).
Proof.
  intros Hid. unfold CopyGrubFiles_run. rewrite Hid.
  change (negb ("centos" =? "centos")%string) with false. cbv iota.
  unfold bind at 1. unfold query at 1.
  destruct (existsb (os_path_exists d) (src_files h)); cbn [negb].
  - unfold bind, ret, tree_after, calls.
    destruct (copy_loop h (src_files h) d) as [[[] d'] t]. cbn [fst snd].
    now rewrite app_nil_r.
  - reflexivity.
Qed.

Lemma copy_loop_copies (l : list string) (d : fs) (src dst : string)
    (raised : option OSError) :
  In (Copy2 src dst raised) (calls (copy_loop h l d)) -> In src l /\ dst = dst_of h src.
Proof.
  revert d. induction l as [|s rest IH]; intros d; [intros [] |].
  rewrite copy_loop_cons.
  destruct (os_path_exists d (dst_of h s)).
  - intros Hin. destruct (IH d Hin). split; [now right | assumption].
  - destruct (shutil_copy2 h d s (dst_of h s)) as [[err|] d1]; rewrite calls_eq.
    + intros [E | [E | Hin]]; [injection E as <- <- _; split; [now left | reflexivity]
                              | discriminate E |].
      destruct (IH d1 Hin). split; [now right | assumption].
    + intros [E | Hin]; [injection E as <- <- _; split; [now left | reflexivity] |].
      destruct (IH d1 Hin). split; [now right | assumption].
Qed.

(** C6. With none of the three sources present on a centos system, the
    Error lists the required files [grubenv] and [grub.cfg] as missing and
    not the optional [user.cfg]. *)
Theorem CopyGrubFiles_all_missing_lists_required (d : fs) :
  system_info_id h = "centos" ->
  Forall (fun f => os_path_exists d f = false) (src_files h) ->
  let outcome := run CopyGrubFiles h d in
  missing_files h d = [centos "grubenv"; centos "grub.cfg"] /\
  missing_files h d = required h /\
  ~ In (centos "user.cfg") (missing_files h d) /\
  calls outcome =
    [SetResult (unable_to_find_required_file_for_grub_config (missing_files h d))] /\
  level (unable_to_find_required_file_for_grub_config (missing_files h d)) = "ERROR" /\
  description (unable_to_find_required_file_for_grub_config (missing_files h d)) =
    "Couldn't find one of the GRUB config files in the current system which is required for configuring UEFI for RHEL: "
    +:+ centos "grubenv" +:+ ", " +:+ centos "grub.cfg" /\
  tree_after outcome = d /\ ending outcome = Returned.
Proof.
  intros Hid Hall outcome. subst outcome. unfold run.
  rewrite (CopyGrubFiles_run_centos d Hid).
  rewrite (proj2 (existsb_false_Forall _ _) Hall).
  rewrite (missing_files_none_present d Hall).
  unfold calls, tree_after, ending. cbn [fst snd].
  repeat split.
  intros [Hin | [Hin | []]]; apply centos_inj in Hin; try reflexivity; discriminate Hin.
Qed.

(** C1 (as the code has it). On a centos system the Error
    [UNABLE_TO_FIND_REQUIRED_FILE_FOR_GRUB_CONFIG] is recorded if and only if
    none of the three sources exists, and then names [grubenv] and
    [grub.cfg]; with [grubenv] present it is not recorded, whatever else is
    missing. *)
Theorem CopyGrubFiles_missing_file_error_iff_none_present (d : fs) :
  system_info_id h = "centos" ->
  let outcome := run CopyGrubFiles h d in
  ((exists r, In r (results_set (calls outcome)) /\
              id r = "UNABLE_TO_FIND_REQUIRED_FILE_FOR_GRUB_CONFIG") <->
   Forall (fun f => os_path_exists d f = false) (src_files h)) /\
  (Forall (fun f => os_path_exists d f = false) (src_files h) ->
   results_set (calls outcome) =
     [unable_to_find_required_file_for_grub_config
        [centos "grubenv"; centos "grub.cfg"]]) /\
  (os_path_exists d (centos "grubenv") = true ->
   forall r, In r (results_set (calls outcome)) ->
             id r <> "UNABLE_TO_FIND_REQUIRED_FILE_FOR_GRUB_CONFIG").
Proof.
  intros Hid outcome. subst outcome. unfold run.
  rewrite (CopyGrubFiles_run_centos d Hid).
  assert (Hloop : forall r,
             In r (results_set (calls (copy_loop h (src_files h) d))) ->
             id r <> "UNABLE_TO_FIND_REQUIRED_FILE_FOR_GRUB_CONFIG").
  { intros r. rewrite (proj1 (copy_loop_results (src_files h) d)).
    intros Hin. apply in_map_iff in Hin as (err & <- & _). discriminate. }
  destruct (existsb (os_path_exists d) (src_files h)) eqn:Hany;
    rewrite !calls_eq.
  - assert (Hnot : ~ Forall (fun f => os_path_exists d f = false) (src_files h)).
    { intros Hall. apply existsb_false_Forall in Hall. congruence. }
    split; [| split].
    + split; [| intros Hall; now destruct Hnot].
      intros (r & Hin & Hr). now destruct (Hloop r Hin).
    + intros Hall. now destruct Hnot.
    + intros _. exact Hloop.
  - apply existsb_false_Forall in Hany.
    rewrite (missing_files_none_present d Hany).
    split; [| split].
    + split; [intros _; exact Hany |].
      intros _. eexists. split; [left; reflexivity | reflexivity].
    + intros _. reflexivity.
    + intros Hg. rewrite src_files_eq in Hany. apply Forall_cons in Hany as [H1 _].
      congruence.
Qed.

(** C2 (as the code has it). On a centos system with a source present,
    each copy that raises sets one Error
    [GRUB_FILES_NOT_COPIED_TO_BOOT_DIRECTORY] carrying the code and message
    of its error, so exactly one such Error is set when exactly one copy
    raises; and every candidate that exists at the source and is absent at
    the destination still has its copy attempted, also after an earlier
    copy raised. *)
Theorem CopyGrubFiles_records_each_copy_failure (d : fs) :
  system_info_id h = "centos" ->
  existsb (os_path_exists d) (src_files h) = true ->
  let t := calls (run CopyGrubFiles h d) in
  results_set t = map grub_files_not_copied_to_boot_directory (copy_errors t) /\
  (forall err,
      level (grub_files_not_copied_to_boot_directory err) = "ERROR" /\
      id (grub_files_not_copied_to_boot_directory err)
        = "GRUB_FILES_NOT_COPIED_TO_BOOT_DIRECTORY" /\
      description (grub_files_not_copied_to_boot_directory err)
        = "I/O error(" +:+ pretty (errno err) +:+ "): " +:+ strerror err
          +:+ " Some GRUB files have not been copied to /boot/efi/EFI/redhat.") /\
  (forall err, copy_errors t = [err] ->
               results_set t = [grub_files_not_copied_to_boot_directory err]) /\
  (forall name,
      In name ["grubenv"; "grub.cfg"; "user.cfg"] ->
      os_path_exists d (centos name) = true ->
      os_path_exists d (rhel name) = false ->
      In (centos name, rhel name) (copies_attempted t)).
Proof.
  intros Hid Hany t. subst t. unfold run.
  rewrite (CopyGrubFiles_run_centos d Hid), Hany.
  rewrite !calls_eq.
  pose proof (proj1 (copy_loop_results (src_files h) d)) as Hres.
  split; [exact Hres |]. split; [intros err; repeat split |]. split.
  - intros err Herr. rewrite Hres, Herr. reflexivity.
  - intros name Hname _ Hdst.
    rewrite (copy_loop_attempts (src_files h) d src_files_dst_nonempty src_files_dst_NoDup).
    assert (Hsep : os_path.has_sep name = false).
    { destruct Hname as [<- | [<- | [<- | []]]]; reflexivity. }
    rewrite <- (dst_of_centos name Hsep).
    apply (in_map (fun s => (s, dst_of h s))). apply filter_In. split.
    + rewrite src_files_eq. destruct Hname as [<- | [<- | [<- | []]]]; simpl; auto.
    + rewrite (dst_of_centos name Hsep), Hdst. reflexivity.
Qed.

(** C9. A candidate whose destination under the target EFI directory
    already exists is left alone: the destination keeps what it held, no
    copy is attempted from that source or onto that destination, and the
    loop runs exactly as it would without the candidate, so no I/O Error
    comes from it. *)
Theorem CopyGrubFiles_keeps_existing_destination (d : fs) (name : string) :
  In name ["grubenv"; "grub.cfg"; "user.cfg"] ->
  os_path_exists d (rhel name) = true ->
  let outcome := run CopyGrubFiles h d in
  tree_after outcome !! rhel name = d !! rhel name /\
  (forall src dst raised,
      In (Copy2 src dst raised) (calls outcome) ->
      dst <> rhel name /\ src <> centos name) /\
  copy_loop h (src_files h) d =
    copy_loop h (List.filter (fun s => negb (String.eqb s (centos name))) (src_files h)) d.
Proof.
  intros Hname Hdst outcome. subst outcome.
  assert (Hsep : os_path.has_sep name = false).
  { destruct Hname as [<- | [<- | [<- | []]]]; reflexivity. }
  pose proof (dst_of_centos name Hsep) as Hdstof.
  assert (Hp : os_path_exists d (dst_of h (centos name)) = true) by now rewrite Hdstof.
  split; [| split].
  - unfold run. destruct (String.eqb_spec (system_info_id h) "centos") as [Hid | Hid].
    + rewrite (CopyGrubFiles_run_centos d Hid).
      destruct (existsb (os_path_exists d) (src_files h)); [| reflexivity].
      rewrite tree_after_eq.
      apply copy_loop_frame; [apply src_files_dst_nonempty | exact Hdst].
    + now rewrite (CopyGrubFiles_run_other_system d Hid).
  - unfold run. destruct (String.eqb_spec (system_info_id h) "centos") as [Hid | Hid].
    + rewrite (CopyGrubFiles_run_centos d Hid).
      destruct (existsb (os_path_exists d) (src_files h)).
      * rewrite calls_eq. intros src dst raised Hin.
        assert (Hne : dst <> rhel name).
        { apply (proj2 (copy_loop_frame (src_files h) d (rhel name)
                          src_files_dst_nonempty Hdst) src dst raised Hin). }
        split; [exact Hne |].
        apply copy_loop_copies in Hin as [_ ->].
        intros ->. now rewrite Hdstof in Hne.
      * intros src dst raised [E | []]. discriminate E.
    + rewrite (CopyGrubFiles_run_other_system d Hid). intros src dst raised [].
  - apply copy_loop_skips; [apply src_files_dst_nonempty | exact Hp].
Qed.

End copy_grub_files.

Lemma CopyGrubFiles_all_missing_lists_required_witness :
  system_info_id centos_host = "centos" /\
  Forall (fun f => os_path_exists no_grub_files f = false) (src_files centos_host) /\
  missing_files centos_host no_grub_files
    = ["/boot/efi/EFI/centos/grubenv"; "/boot/efi/EFI/centos/grub.cfg"].
Proof.
  assert (Hall : Forall (fun f => os_path_exists no_grub_files f = false)
                        (src_files centos_host)).
  { repeat constructor. }
  split; [reflexivity |]. split; [exact Hall |].
  apply (CopyGrubFiles_all_missing_lists_required centos_host no_grub_files eq_refl Hall).
Defined.

(** C1, as it is stated, fails on the code: with only [grubenv] present the
    missing-file Error is not recorded; the copies of the two absent sources
    raise instead. *)
Lemma only_grubenv_records_no_missing_file_error :
  system_info_id centos_host = "centos" /\
  map (os_path_exists only_grubenv) (src_files centos_host) = [true; false; false] /\
  ~ (exists r, In r (results_set (calls (run CopyGrubFiles centos_host only_grubenv))) /\
               id r = "UNABLE_TO_FIND_REQUIRED_FILE_FOR_GRUB_CONFIG") /\
  map id (results_set (calls (run CopyGrubFiles centos_host only_grubenv)))
    = ["GRUB_FILES_NOT_COPIED_TO_BOOT_DIRECTORY"; "GRUB_FILES_NOT_COPIED_TO_BOOT_DIRECTORY"].
Proof.
  split; [reflexivity |]. split; [vm_compute; reflexivity |].
  split; [| vm_compute; reflexivity].
  intros (r & Hin & Hr). vm_compute in Hin.
  destruct Hin as [<- | [<- | []]]; discriminate Hr.
Qed.

Lemma CopyGrubFiles_missing_file_error_iff_none_present_witness :
  system_info_id centos_host = "centos" /\
  os_path_exists only_grubenv "/boot/efi/EFI/centos/grubenv" = true /\
  forall r, In r (results_set (calls (run CopyGrubFiles centos_host only_grubenv))) ->
            id r <> "UNABLE_TO_FIND_REQUIRED_FILE_FOR_GRUB_CONFIG".
Proof.
  split; [reflexivity |]. split; [vm_compute; reflexivity |].
  destruct (CopyGrubFiles_missing_file_error_iff_none_present
              centos_host only_grubenv eq_refl) as (_ & _ & Hpresent).
  apply Hpresent. vm_compute. reflexivity.
Defined.

(** C2, as it is stated, fails on the code: after the copy of [grubenv] is
    denied, [grub.cfg] and [user.cfg] are still copied. *)
Lemma copying_continues_after_a_failure :
  system_info_id denied_host = "centos" /\
  copy_errors (calls (run CopyGrubFiles denied_host all_three))
    = [EACCES "/boot/efi/EFI/redhat/grubenv"] /\
  copies_attempted (after_first_failure (calls (run CopyGrubFiles denied_host all_three)))
    = [("/boot/efi/EFI/centos/grub.cfg", "/boot/efi/EFI/redhat/grub.cfg");
       ("/boot/efi/EFI/centos/user.cfg", "/boot/efi/EFI/redhat/user.cfg")] /\
  ~ copies_attempted (after_first_failure (calls (run CopyGrubFiles denied_host all_three)))
    = [] /\
  tree_after (run CopyGrubFiles denied_host all_three) !! "/boot/efi/EFI/redhat/grub.cfg"
    = Some (File "set timeout=5").
Proof.
  split; [reflexivity |]. split; [vm_compute; reflexivity |].
  split; [vm_compute; reflexivity |].
  split; [vm_compute; discriminate | vm_compute; reflexivity].
Qed.

Lemma CopyGrubFiles_records_each_copy_failure_witness :
  system_info_id denied_host = "centos" /\
  existsb (os_path_exists all_three) (src_files denied_host) = true /\
  results_set (calls (run CopyGrubFiles denied_host all_three))
    = [grub_files_not_copied_to_boot_directory (EACCES "/boot/efi/EFI/redhat/grubenv")].
Proof.
  split; [reflexivity |]. split; [vm_compute; reflexivity |].
  destruct (CopyGrubFiles_records_each_copy_failure denied_host all_three eq_refl)
    as (_ & _ & Hone & _).
  - vm_compute. reflexivity.
  - apply Hone. vm_compute. reflexivity.
Defined.

Lemma CopyGrubFiles_keeps_existing_destination_witness :
  In "grubenv" ["grubenv"; "grub.cfg"; "user.cfg"] /\
  os_path_exists grubenv_in_place "/boot/efi/EFI/redhat/grubenv" = true /\
  tree_after (run CopyGrubFiles centos_host grubenv_in_place) !! "/boot/efi/EFI/redhat/grubenv"
    = Some (File "saved_entry=1").
Proof.
  split; [now left |]. split; [vm_compute; reflexivity |].
  destruct (CopyGrubFiles_keeps_existing_destination centos_host grubenv_in_place "grubenv")
    as (Hkept & _).
  - now left.
  - vm_compute. reflexivity.
  - change (os_path.join (RHEL_EFIDIR_CANONICAL_PATH centos_host) "grubenv")
      with "/boot/efi/EFI/redhat/grubenv" in Hkept.
    rewrite Hkept. vm_compute. reflexivity.
Defined.

(** ** How often an action sets its result *)

(** C4, as it is stated, fails on the code: with only [grubenv] present two
    copies raise and [set_result] is called with level ERROR twice in one
    run. *)
Lemma two_failed_copies_set_two_errors :
  map level (results_set (calls (run CopyGrubFiles centos_host only_grubenv)))
    = ["ERROR"; "ERROR"] /\
  ~ (length (results_set (calls (run CopyGrubFiles centos_host only_grubenv))) <= 1)%nat.
Proof.
  split; [vm_compute; reflexivity |].
  vm_compute. intros Hle. inversion Hle as [|? Hle']. inversion Hle'.
Qed.

(** C4 (as the code has it). A run of any action other than [CopyGrubFiles]
    calls [set_result] at most once. A run of [CopyGrubFiles] never calls it
    on a system other than centos and calls it exactly once when none of the
    sources exists; otherwise a copy is attempted for every candidate whose
    destination is absent, a copy that raises not ending the loop, and
    [set_result] is called exactly once for each of these copies that
    raises, in their order: up to three times in one run. Every call has
    level ERROR. *)
Theorem set_result_once_or_once_per_failed_copy (a : action) (h : Host) (d : fs) :
  let t := calls (run a h d) in
  (a <> CopyGrubFiles ->
   (length (results_set t) <= 1)%nat /\ copies_attempted t = []) /\
  (a = CopyGrubFiles ->
   (system_info_id h <> "centos" -> t = []) /\
   (system_info_id h = "centos" ->
    existsb (os_path_exists d) (src_files h) = false ->
    t = [SetResult (unable_to_find_required_file_for_grub_config (missing_files h d))]) /\
   (system_info_id h = "centos" ->
    existsb (os_path_exists d) (src_files h) = true ->
    copies_attempted t =
      map (fun s => (s, dst_of h s))
          (List.filter (fun s => negb (os_path_exists d (dst_of h s))) (src_files h)) /\
    results_set t = map grub_files_not_copied_to_boot_directory (copy_errors t) /\
    length (results_set t) = length (copy_errors t) /\
    (length (copy_errors t) <= 3)%nat)) /\
  Forall (fun r => level r = "ERROR") (results_set t).
Proof.
  intros t. subst t. destruct a; unfold run.
  - split; [| split; [discriminate |]].
    + intros _. unfold NewDefaultEfiBin_run, bind, query, set_result, emit, ret.
      destruct (is_efi h); cbn [negb]; [| rewrite calls_eq; cbn; auto].
      destruct (scan_efibins h d (DEFAULT_INSTALLED_EFIBIN_FILENAMES h) []) as [o m].
      destruct (py_not o); rewrite calls_eq; cbn; auto.
    + unfold NewDefaultEfiBin_run, bind, query, set_result, emit, ret.
      destruct (is_efi h); cbn [negb]; [| rewrite calls_eq; constructor].
      destruct (scan_efibins h d (DEFAULT_INSTALLED_EFIBIN_FILENAMES h) []) as [o m].
      destruct (py_not o); rewrite calls_eq; cbn; repeat constructor.
  - split; [| split; [discriminate |]].
    + intros _. unfold EfibootmgrUtilityInstalled_run, bind, query, set_result, emit, ret.
      destruct (os_path_exists d "/usr/sbin/efibootmgr"); cbn [negb];
        rewrite calls_eq; cbn; auto.
    + unfold EfibootmgrUtilityInstalled_run, bind, query, set_result, emit, ret.
      destruct (os_path_exists d "/usr/sbin/efibootmgr"); cbn [negb];
        rewrite calls_eq; cbn; repeat constructor.
  - split; [intros Hne; now destruct Hne |].
    destruct (String.eqb_spec (system_info_id h) "centos") as [Hid | Hid].
    + rewrite (CopyGrubFiles_run_centos h d Hid).
      destruct (existsb (os_path_exists d) (src_files h)) eqn:Hany; rewrite calls_eq.
      * destruct (copy_loop_results h (src_files h) d) as [Hres _].
        pose proof (copy_loop_errors_bounded h (src_files h) d) as Hlen.
        split.
        { intros _. split; [intros Hother; now destruct Hother |].
          split; [discriminate |]. intros _ _.
          split; [apply copy_loop_attempts;
                  [apply src_files_dst_nonempty | apply src_files_dst_NoDup] |].
          split; [exact Hres |]. split; [| exact Hlen].
          now rewrite Hres, length_map. }
        rewrite Hres. apply Forall_forall. intros r Hin.
        apply list_elem_of_In, in_map_iff in Hin as (err & <- & _). reflexivity.
      * split.
        { intros _. split; [intros Hother; now destruct Hother |].
          split; [reflexivity | discriminate]. }
        cbn. repeat constructor.
    + rewrite (CopyGrubFiles_run_other_system h d Hid), calls_eq.
      split; [| constructor].
      intros _. split; [reflexivity |].
      split; intros Hc; now destruct Hid.
  - split; [| split; [discriminate |]].
    + intros _. destruct (String.eqb_spec (system_info_id h) "centos") as [Hid | Hid].
      * rewrite (RemoveEfiCentos_run_centos h d Hid).
        destruct (os_rmdir h d (CENTOS_EFIDIR_CANONICAL_PATH h)); rewrite calls_eq; cbn; auto.
      * rewrite (RemoveEfiCentos_run_other_system h d Hid), calls_eq. cbn. auto.
    + destruct (String.eqb_spec (system_info_id h) "centos") as [Hid | Hid].
      * rewrite (RemoveEfiCentos_run_centos h d Hid).
        destruct (os_rmdir h d (CENTOS_EFIDIR_CANONICAL_PATH h)); rewrite calls_eq;
          constructor.
      * rewrite (RemoveEfiCentos_run_other_system h d Hid), calls_eq. constructor.
  - split; [| split; [discriminate |]].
    + intros _.
      unfold ReplaceEfiBootEntry_run, call_replace_efi_boot_entry, bind, set_result, emit, ret.
      destruct (replace_efi_boot_entry h d) as [[|message|what] d'];
        rewrite calls_eq; cbn; auto.
    + unfold ReplaceEfiBootEntry_run, call_replace_efi_boot_entry, bind, set_result, emit, ret.
      destruct (replace_efi_boot_entry h d) as [[|message|what] d'];
        rewrite calls_eq; cbn; repeat constructor.
Qed.

Lemma set_result_once_or_once_per_failed_copy_witness :
  system_info_id centos_host = "centos" /\
  existsb (os_path_exists only_grubenv) (src_files centos_host) = true /\
  length (copies_attempted (calls (run CopyGrubFiles centos_host only_grubenv))) = 3%nat /\
  length (copy_errors (calls (run CopyGrubFiles centos_host only_grubenv))) = 2%nat /\
  length (results_set (calls (run CopyGrubFiles centos_host only_grubenv))) = 2%nat.
Proof.
  split; [reflexivity |]. split; [vm_compute; reflexivity |].
  destruct (set_result_once_or_once_per_failed_copy CopyGrubFiles centos_host only_grubenv)
    as (_ & Hcopy & _).
  destruct (Hcopy eq_refl) as (_ & _ & Hsome).
  destruct Hsome as (Hattempts & _ & Hlen & _); [reflexivity | vm_compute; reflexivity |].
  rewrite Hlen, Hattempts. vm_compute. repeat split.
Defined.

(** * Further properties of the actions *)

(** ** The declarations *)

(** The action ids are pairwise distinct, and every dependency a class
    declares is the id of a class defined earlier in the module: no declared
    dependency dangles and the declarations have no cycle. *)
Theorem declared_dependencies_point_backwards :
  NoDup (map action_id pipeline) /\
  (forall a, In a pipeline) /\
  (forall a deps on,
      declared_dependencies a = Some deps -> In on deps ->
      exists b i j,
        pipeline !! i = Some b /\ pipeline !! j = Some a /\
        action_id b = on /\ (i < j)%nat).
Proof.
  split; [| split].
  - unfold pipeline. cbn [map action_id].
    repeat (apply NoDup_cons; split); try apply NoDup_nil_2;
      rewrite ?elem_of_cons, ?elem_of_nil;
      intros Hin; repeat destruct Hin as [Hin | Hin]; try exact Hin; discriminate Hin.
  - intros []; unfold pipeline; simpl; auto 6.
  - intros a deps on Hdeps Hin.
    destruct a; try discriminate Hdeps; injection Hdeps as <-;
      destruct Hin as [<- | []].
    + exists NewDefaultEfiBin, 0%nat, 1%nat. repeat split. lia.
    + exists CopyGrubFiles, 2%nat, 3%nat. repeat split. lia.
    + exists RemoveEfiCentos, 3%nat, 4%nat. repeat split. lia.
Qed.

Lemma declared_dependencies_point_backwards_witness :
  declared_dependencies ReplaceEfiBootEntry = Some ["REMOVE_EFI_CENTOS"] /\
  exists b i j,
    pipeline !! i = Some b /\ pipeline !! j = Some ReplaceEfiBootEntry /\
    action_id b = "REMOVE_EFI_CENTOS" /\ (i < j)%nat.
Proof.
  split; [reflexivity |].
  destruct declared_dependencies_point_backwards as (_ & _ & Hback).
  apply (Hback ReplaceEfiBootEntry ["REMOVE_EFI_CENTOS"] "REMOVE_EFI_CENTOS");
    [reflexivity | now left].
Defined.

(** ** The two checks *)

(** [EfibootmgrUtilityInstalled] records [NOT_INSTALLED_EFIBOOTMGR_UTILITY]
    exactly when [/usr/sbin/efibootmgr] does not exist, and nothing when it
    does. It looks at nothing else: neither the boot mode nor the system id
    of the host changes the answer, and the tree is left as it was. *)
Theorem EfibootmgrUtilityInstalled_error_iff_absent (h : Host) (d : fs) :
  let outcome := run EfibootmgrUtilityInstalled h d in
  (os_path_exists d "/usr/sbin/efibootmgr" = false <->
   calls outcome = [SetResult not_installed_efibootmgr_utility]) /\
  (os_path_exists d "/usr/sbin/efibootmgr" = true <-> calls outcome = []) /\
  (forall h', calls (run EfibootmgrUtilityInstalled h' d) = calls outcome) /\
  tree_after outcome = d /\ ending outcome = Returned.
Proof.
  unfold run, EfibootmgrUtilityInstalled_run, bind, query, set_result, emit, ret.
  destruct (os_path_exists d "/usr/sbin/efibootmgr"); cbn [negb];
    rewrite !calls_eq, tree_after_eq, ending_eq; cbn [app].
  - repeat split; try discriminate; auto.
  - repeat split; try discriminate; auto.
Qed.

(** ** Actions that do not apply *)

(** An action that does not apply to the host makes no call and leaves the
    tree as it was, whatever the tree holds: [NewDefaultEfiBin] on a host
    booted in BIOS mode, [CopyGrubFiles] and [RemoveEfiCentos] on a host
    whose [system_info.id] is not exactly ["centos"]. *)
Theorem inapplicable_action_does_nothing (a : action) (h : Host) (d : fs) :
  (a = NewDefaultEfiBin /\ is_efi h = false) \/
  ((a = CopyGrubFiles \/ a = RemoveEfiCentos) /\ system_info_id h <> "centos") ->
  run a h d = (Returned, d, []).
Proof.
  intros [[-> Hbios] | [[-> | ->] Hid]].
  - unfold run, NewDefaultEfiBin_run. now rewrite Hbios.
  - apply (CopyGrubFiles_run_other_system h d Hid).
  - apply (RemoveEfiCentos_run_other_system h d Hid).
Qed.

Lemma inapplicable_action_does_nothing_witness :
  system_info_id oracle_bios_host <> "centos" /\
  listdir all_three "/boot/efi/EFI/centos/" <> [] /\
  scan_efibins oracle_bios_host ∅ (DEFAULT_INSTALLED_EFIBIN_FILENAMES oracle_bios_host) []
    = (None, ["/boot/efi/EFI/redhat/shimx64.efi"; "/boot/efi/EFI/redhat/grubx64.efi"]) /\
  run NewDefaultEfiBin oracle_bios_host ∅ = (Returned, ∅, []) /\
  run CopyGrubFiles oracle_bios_host all_three = (Returned, all_three, []) /\
  run RemoveEfiCentos oracle_bios_host all_three = (Returned, all_three, []).
Proof.
  assert (Hid : system_info_id oracle_bios_host <> "centos") by discriminate.
  split; [exact Hid |]. split; [vm_compute; discriminate |].
  split; [vm_compute; reflexivity |].
  split; [| split]; apply inapplicable_action_does_nothing.
  - left. split; reflexivity.
  - right. split; [now left | exact Hid].
  - right. split; [now right | exact Hid].
Defined.

(** ** More on CopyGrubFiles *)

Section copy_grub_files_effects.
Variable h : Host.

Local Abbreviation centos := (os_path.join (CENTOS_EFIDIR_CANONICAL_PATH h)).
Local Abbreviation rhel := (os_path.join (RHEL_EFIDIR_CANONICAL_PATH h)).
Local Abbreviation names := ["grubenv"; "grub.cfg"; "user.cfg"].

Lemma names_plain (name : string) :
  In name names ->
  os_path.has_sep name = false /\ os_path.startswith_sep name = false /\ name <> "".
Proof.
  intros [<- | [<- | [<- | []]]]; repeat split; discriminate.
Qed.

Lemma src_files_names : src_files h = map centos names.
Proof. reflexivity. Qed.

Lemma centos_in_src_files (name : string) : In name names -> In (centos name) (src_files h).
Proof. intros Hin. rewrite src_files_names. now apply in_map. Qed.




Lemma os_path_exists_file (d : fs) (p : string) (data : string) :
  d !! p = Some (File data) -> p <> "" -> os_path_exists d p = true.
Proof.
  intros E Hp. unfold os_path_exists. destruct p; [congruence |]. now rewrite E.
Qed.

(** The loop only copies a listed file to its destination, or sets the
    copy Error. *)
Lemma copy_loop_calls_shape (l : list string) (d : fs) (e : event) :
  In e (calls (copy_loop h l d)) ->
  (exists s raised, In s l /\ e = Copy2 s (dst_of h s) raised) \/
  (exists err, e = SetResult (grub_files_not_copied_to_boot_directory err)).
Proof.
  revert d. induction l as [|s rest IH]; intros d; [intros [] |].
  rewrite copy_loop_cons.
  assert (Hrest : forall d0, In e (calls (copy_loop h rest d0)) ->
            (exists s0 raised, In s0 (s :: rest) /\ e = Copy2 s0 (dst_of h s0) raised) \/
            (exists err, e = SetResult (grub_files_not_copied_to_boot_directory err))).
  { intros d0 Hin. destruct (IH d0 Hin) as [(s0 & r & Hs0 & ->) | Herr]; [left | now right].
    exists s0, r. split; [now right | reflexivity]. }
  destruct (os_path_exists d (dst_of h s)); [apply Hrest |].
  destruct (shutil_copy2 h d s (dst_of h s)) as [[err|] d1]; rewrite calls_eq.
  - intros [<- | [<- | Hin]]; [left | right; eauto | now apply (Hrest d1)].
    exists s, (Some err). split; [now left | reflexivity].
  - intros [<- | Hin]; [left | now apply (Hrest d1)].
    exists s, None. split; [now left | reflexivity].
Qed.

Lemma CopyGrubFiles_keeps_path (d : fs) (p : string) :
  os_path_exists d p = true -> tree_after (run CopyGrubFiles h d) !! p = d !! p.
Proof.
  intros Hp. unfold run.
  destruct (String.eqb_spec (system_info_id h) "centos") as [Hid | Hid].
  - rewrite (CopyGrubFiles_run_centos h d Hid).
    destruct (existsb (os_path_exists d) (src_files h)); rewrite tree_after_eq;
      [| reflexivity].
    apply copy_loop_frame; [apply src_files_dst_nonempty | exact Hp].
  - now rewrite (CopyGrubFiles_run_other_system h d Hid).
Qed.

(** [CopyGrubFiles] only ever adds files: a path that exists when the action
    starts holds the same thing when it ends (so the sources stay where they
    are and nothing is overwritten or removed), and the only calls the action
    makes are copies of a candidate from the source to the target EFI
    directory and [set_result]. *)
Theorem CopyGrubFiles_only_adds (d : fs) :
  let outcome := run CopyGrubFiles h d in
  (forall p, os_path_exists d p = true -> tree_after outcome !! p = d !! p) /\
  (forall e, In e (calls outcome) ->
             (exists name raised, In name names /\ e = Copy2 (centos name) (rhel name) raised) \/
             (exists r, e = SetResult r)) /\
  ending outcome = Returned.
Proof.
  intros outcome. subst outcome. unfold run.
  destruct (String.eqb_spec (system_info_id h) "centos") as [Hid | Hid].
  - rewrite (CopyGrubFiles_run_centos h d Hid).
    destruct (existsb (os_path_exists d) (src_files h));
      rewrite calls_eq, tree_after_eq, ending_eq.
    + split; [| split; [| reflexivity]].
      * intros p Hp. apply copy_loop_frame; [apply src_files_dst_nonempty | exact Hp].
      * intros e Hin.
        destruct (copy_loop_calls_shape _ _ _ Hin) as [(s & r & Hs & ->) | (err & ->)];
          [left | right; eauto].
        rewrite src_files_names in Hs. apply in_map_iff in Hs as (name & <- & Hname).
        exists name, r. split; [exact Hname |].
        now rewrite (dst_of_centos h name (proj1 (names_plain name Hname))).
    + split; [reflexivity | split; [| reflexivity]].
      intros e [<- | []]. right. eauto.
  - rewrite (CopyGrubFiles_run_other_system h d Hid), calls_eq, tree_after_eq, ending_eq.
    split; [reflexivity | split; [intros e [] | reflexivity]].
Qed.

End copy_grub_files_effects.

Lemma CopyGrubFiles_only_adds_witness :
  os_path_exists all_three "/boot/efi/EFI/centos/grubenv" = true /\
  tree_after (run CopyGrubFiles centos_host all_three) !! "/boot/efi/EFI/centos/grubenv"
    = Some (File "saved_entry=0").
Proof.
  split; [vm_compute; reflexivity |].
  destruct (CopyGrubFiles_only_adds centos_host all_three) as (Hkept & _).
  rewrite (Hkept "/boot/efi/EFI/centos/grubenv"); vm_compute; reflexivity.
Defined.

Section copy_grub_files_outcomes.
Variable h : Host.

Local Abbreviation centos := (os_path.join (CENTOS_EFIDIR_CANONICAL_PATH h)).
Local Abbreviation rhel := (os_path.join (RHEL_EFIDIR_CANONICAL_PATH h)).
Local Abbreviation names := ["grubenv"; "grub.cfg"; "user.cfg"].


Lemma parent_is_dir_kept (d d1 : fs) (p : string) :
  (forall q, d !! q = Some Dir -> d1 !! q = Some Dir) ->
  parent_is_dir d p = true -> parent_is_dir d1 p = true.
Proof.
  intros Hkept. unfold parent_is_dir, is_directory.
  destruct (os_path.head p) as [|c hd]; [reflexivity |].
  intros Hp. apply orb_true_iff in Hp. apply orb_true_iff.
  destruct Hp as [Hp | Hp]; [left | right].
  - destruct (d !! String c hd) as [[data|]|] eqn:E; try discriminate Hp.
    now rewrite (Hkept _ E).
  - destruct (d !! os_path.dirname p) as [[data|]|] eqn:E; try discriminate Hp.
    now rewrite (Hkept _ E).
Qed.

(** A copy onto an absent destination keeps every directory. *)
Lemma copy_step_keeps_dirs (d d1 : fs) (src dst : string) (raised : option OSError) :
  os_path_exists d dst = false -> dst <> "" ->
  shutil_copy2 h d src dst = (raised, d1) ->
  forall q, d !! q = Some Dir -> d1 !! q = Some Dir.
Proof.
  intros Habs Hne Hcp q Hq.
  rewrite (copy_step_keeps h d d1 src dst q raised Habs Hne Hcp); [exact Hq |].
  intros ->. rewrite (os_path_absent_lookup d dst Habs Hne) in Hq. discriminate Hq.
Qed.

(** The copy of a regular file into a directory that exists, onto an absent
    destination and without failure of the system. *)
Lemma shutil_copy2_succeeds (d : fs) (src dst data : string) :
  copy_fault h src dst = None -> d !! src = Some (File data) ->
  os_path_exists d dst = false -> dst <> "" -> parent_is_dir d dst = true ->
  shutil_copy2 h d src dst = (None, <[dst := File data]> d).
Proof.
  intros Hfault Hsrc Hdst Hne Hparent. unfold shutil_copy2.
  now rewrite Hfault, Hsrc, (os_path_absent_lookup d dst Hdst Hne), Hparent.
Qed.

(** A listed regular file whose destination is absent, in a directory that
    exists, and whose copy the system does not fail, is copied whatever
    happens to the others. *)
Lemma copy_loop_copies_file (l : list string) (d : fs) (s data : string) :
  In s l -> NoDup (map (dst_of h) l) -> Forall (fun s' => dst_of h s' <> "") l ->
  d !! s = Some (File data) -> s <> "" ->
  os_path_exists d (dst_of h s) = false ->
  parent_is_dir d (dst_of h s) = true ->
  copy_fault h s (dst_of h s) = None ->
  tree_after (copy_loop h l d) !! dst_of h s = Some (File data) /\
  In (Copy2 s (dst_of h s) None) (calls (copy_loop h l d)).
Proof.
  intros Hin Hnd Hl. revert d Hin Hnd.
  induction Hl as [|s' rest Hs' Hrest IH]; intros d Hin Hnd Hsrc Hs Hdst Hparent Hfault;
    [destruct Hin |].
  cbn [map] in Hnd. apply NoDup_cons in Hnd as [Hnotin Hnd].
  rewrite copy_loop_cons.
  destruct (String.eqb_spec s' s) as [-> | Hne].
  - rewrite Hdst.
    rewrite (shutil_copy2_succeeds d s _ data Hfault Hsrc Hdst Hs' Hparent).
    rewrite tree_after_eq, calls_eq. split; [| now left].
    assert (Hnow : os_path_exists (<[dst_of h s := File data]> d) (dst_of h s) = true).
    { apply (os_path_exists_file _ _ data); [apply lookup_insert_eq | exact Hs']. }
    rewrite (proj1 (copy_loop_frame h rest _ _ Hrest Hnow)). apply lookup_insert_eq.
  - destruct Hin as [E | Hin]; [now destruct Hne |].
    assert (Hdd : dst_of h s' <> dst_of h s).
    { intros E. apply Hnotin. rewrite E. apply list_elem_of_In. now apply in_map. }
    destruct (os_path_exists d (dst_of h s')) eqn:Hdst'; [now apply IH |].
    assert (Hds : dst_of h s' <> s).
    { intros E. rewrite E in Hdst'.
      rewrite (os_path_exists_file d s data Hsrc Hs) in Hdst'. discriminate Hdst'. }
    destruct (shutil_copy2 h d s' (dst_of h s')) as [raised d1] eqn:Hcp.
    destruct (IH d1 Hin Hnd) as [Htree Hcall].
    + rewrite (copy_step_keeps h d d1 s' _ s raised Hdst' Hs' Hcp); [exact Hsrc |].
      now apply not_eq_sym.
    + exact Hs.
    + rewrite (os_path_exists_same d d1); [exact Hdst |].
      apply (copy_step_keeps h d d1 s' _ _ raised Hdst' Hs' Hcp). now apply not_eq_sym.
    + apply (parent_is_dir_kept d d1); [| exact Hparent].
      apply (copy_step_keeps_dirs d d1 s' _ raised Hdst' Hs' Hcp).
    + exact Hfault.
    + destruct raised as [err|]; rewrite tree_after_eq, calls_eq;
        (split; [exact Htree |]); [now right; right | now right].
Qed.

(** On a centos system, a candidate that is a regular file at the source,
    is absent at the destination, is to go into a directory that exists, and
    whose copy the system does not fail, ends up at the destination with the
    data of the source, whether or not the copies of the other candidates
    raise. *)
Theorem CopyGrubFiles_copies_each_present_file (d : fs) (name data : string) :
  system_info_id h = "centos" ->
  In name names ->
  d !! centos name = Some (File data) ->
  os_path_exists d (rhel name) = false ->
  parent_is_dir d (rhel name) = true ->
  copy_fault h (centos name) (rhel name) = None ->
  let outcome := run CopyGrubFiles h d in
  tree_after outcome !! rhel name = Some (File data) /\
  tree_after outcome !! centos name = Some (File data) /\
  In (Copy2 (centos name) (rhel name) None) (calls outcome).
Proof.
  intros Hid Hname Hsrc Hdst Hparent Hfault outcome. subst outcome.
  destruct (names_plain name Hname) as (Hsep & Hrel & Hne).
  assert (Hs : centos name <> "") by now apply join_nonempty.
  assert (Hpresent : os_path_exists d (centos name) = true)
    by exact (os_path_exists_file d _ data Hsrc Hs).
  unfold run. rewrite (CopyGrubFiles_run_centos h d Hid).
  assert (Hany : existsb (os_path_exists d) (src_files h) = true).
  { apply existsb_exists. exists (centos name).
    split; [now apply centos_in_src_files | exact Hpresent]. }
  rewrite Hany, tree_after_eq, calls_eq.
  rewrite <- (dst_of_centos h name Hsep) in Hdst, Hparent, Hfault |- *.
  destruct (copy_loop_copies_file (src_files h) d (centos name) data
              (centos_in_src_files h name Hname) (src_files_dst_NoDup h)
              (src_files_dst_nonempty h) Hsrc Hs Hdst Hparent Hfault) as [Htree Hcall].
  split; [exact Htree | split; [| exact Hcall]].
  rewrite (proj1 (copy_loop_frame h (src_files h) d (centos name)
                    (src_files_dst_nonempty h) Hpresent)).
  exact Hsrc.
Qed.

End copy_grub_files_outcomes.

Lemma CopyGrubFiles_copies_each_present_file_witness :
  system_info_id denied_host = "centos" /\
  copy_errors (calls (run CopyGrubFiles denied_host all_three)) <> [] /\
  tree_after (run CopyGrubFiles denied_host all_three) !! "/boot/efi/EFI/redhat/user.cfg"
    = Some (File "GRUB2_PASSWORD=x").
Proof.
  split; [reflexivity |]. split; [vm_compute; discriminate |].
  apply (CopyGrubFiles_copies_each_present_file denied_host all_three "user.cfg"
           "GRUB2_PASSWORD=x").
  - reflexivity.
  - right; right; now left.
  - vm_compute. reflexivity.
  - vm_compute. reflexivity.
  - vm_compute. reflexivity.
  - vm_compute. reflexivity.
Defined.

Section copy_grub_files_runs.
Variable h : Host.

Local Abbreviation centos := (os_path.join (CENTOS_EFIDIR_CANONICAL_PATH h)).
Local Abbreviation rhel := (os_path.join (RHEL_EFIDIR_CANONICAL_PATH h)).
Local Abbreviation names := ["grubenv"; "grub.cfg"; "user.cfg"].

Lemma copy_errors_raised (src dst : string) (err : OSError) (t : list event) :
  copy_errors (Copy2 src dst (Some err) :: t) = err :: copy_errors t.
Proof. reflexivity. Qed.

Lemma copy_errors_copied (src dst : string) (t : list event) :
  copy_errors (Copy2 src dst None :: t) = copy_errors t.
Proof. reflexivity. Qed.

Lemma copy_errors_set_result (r : report) (t : list event) :
  copy_errors (SetResult r :: t) = copy_errors t.
Proof. reflexivity. Qed.

(** With every destination in place the loop has nothing to do. *)
Lemma copy_loop_all_present (l : list string) (d : fs) :
  Forall (fun s => os_path_exists d (dst_of h s) = true) l ->
  copy_loop h l d = (tt, d, []).
Proof.
  induction 1 as [|s rest Hs _ IH]; [reflexivity |].
  now rewrite copy_loop_cons, Hs.
Qed.

(** When no copy raised, every destination is in place after the loop. *)
Lemma copy_loop_no_error_all_present (l : list string) (d : fs) :
  Forall (fun s => dst_of h s <> "") l ->
  copy_errors (calls (copy_loop h l d)) = [] ->
  Forall (fun s => os_path_exists (tree_after (copy_loop h l d)) (dst_of h s) = true) l.
Proof.
  intros Hl. revert d. induction Hl as [|s rest Hs Hrest IH]; intros d; [constructor |].
  rewrite copy_loop_cons.
  destruct (os_path_exists d (dst_of h s)) eqn:Hdst.
  - intros Hnone. constructor; [| now apply IH].
    rewrite (os_path_exists_same d _ _ (proj1 (copy_loop_frame h rest d _ Hrest Hdst))).
    exact Hdst.
  - destruct (shutil_copy2 h d s (dst_of h s)) as [[err|] d1] eqn:Hcp;
      rewrite calls_eq, tree_after_eq.
    + rewrite copy_errors_raised. discriminate.
    + rewrite copy_errors_copied. intros Hnone.
      destruct (proj2 (shutil_copy2_fresh h d d1 s _ None Hdst Hs Hcp) eq_refl)
        as (data & _ & ->).
      assert (Hnow : os_path_exists (<[dst_of h s := File data]> d) (dst_of h s) = true).
      { apply (os_path_exists_file _ _ data); [apply lookup_insert_eq | exact Hs]. }
      constructor; [| now apply IH].
      rewrite (os_path_exists_same _ _ _ (proj1 (copy_loop_frame h rest _ _ Hrest Hnow))).
      exact Hnow.
Qed.

(** When every listed source is a regular file, every destination is to go
    into a directory that exists and the system fails no copy, no copy
    raises. *)
Lemma copy_loop_no_error (l : list string) (d : fs) :
  Forall (fun s => dst_of h s <> "") l ->
  Forall (fun s => s <> "" /\ exists data, d !! s = Some (File data)) l ->
  Forall (fun s => parent_is_dir d (dst_of h s) = true) l ->
  Forall (fun s => copy_fault h s (dst_of h s) = None) l ->
  copy_errors (calls (copy_loop h l d)) = [].
Proof.
  intros Hl. revert d.
  induction Hl as [|s rest Hs _ IH]; intros d Hsrc Hparent Hfault; [reflexivity |].
  apply Forall_cons in Hsrc as [(Hne & data & Hdata) Hsrc].
  apply Forall_cons in Hparent as [Hp Hparent].
  apply Forall_cons in Hfault as [Hf Hfault].
  rewrite copy_loop_cons.
  destruct (os_path_exists d (dst_of h s)) eqn:Hdst; [now apply IH |].
  pose proof (shutil_copy2_succeeds h d s _ data Hf Hdata Hdst Hs Hp) as Hcp.
  rewrite Hcp, calls_eq, copy_errors_copied. apply IH; [| | exact Hfault].
  - apply Forall_forall. intros s' Hin.
    destruct (proj1 (Forall_forall _ _) Hsrc s' Hin) as (Hne' & data' & Hdata').
    split; [exact Hne' |]. exists data'.
    rewrite lookup_insert_ne; [exact Hdata' |].
    intros E. rewrite E in Hdst.
    rewrite (os_path_exists_file d s' data' Hdata' Hne') in Hdst. discriminate Hdst.
  - apply Forall_forall. intros s' Hin.
    apply (parent_is_dir_kept d); [| exact (proj1 (Forall_forall _ _) Hparent s' Hin)].
    apply (copy_step_keeps_dirs h d _ s _ None Hdst Hs Hcp).
Qed.


(** On a centos system where all three candidates are regular files at the
    source, the directory that is to hold each destination exists and the
    system fails no copy, [CopyGrubFiles] sets no result and adds no
    message, and when it returns every candidate exists at the
    destination. *)
Theorem CopyGrubFiles_sets_no_result_when_copies_succeed (d : fs) :
  system_info_id h = "centos" ->
  (forall name, In name names -> exists data, d !! centos name = Some (File data)) ->
  (forall name, In name names -> parent_is_dir d (rhel name) = true) ->
  (forall name, In name names -> copy_fault h (centos name) (rhel name) = None) ->
  let outcome := run CopyGrubFiles h d in
  results_set (calls outcome) = [] /\
  messages_added (calls outcome) = [] /\
  copy_errors (calls outcome) = [] /\
  (forall name, In name names -> os_path_exists (tree_after outcome) (rhel name) = true) /\
  ending outcome = Returned.
Proof.
  intros Hid Hfiles Hparents Hfaults outcome. subst outcome. unfold run.
  rewrite (CopyGrubFiles_run_centos h d Hid).
  assert (Hany : existsb (os_path_exists d) (src_files h) = true).
  { apply existsb_exists. exists (centos "grubenv").
    destruct (Hfiles "grubenv") as (data & Hdata); [now left |].
    split; [apply centos_in_src_files; now left |].
    apply (os_path_exists_file d _ data Hdata). apply join_nonempty. discriminate. }
  rewrite Hany, calls_eq, tree_after_eq, ending_eq.
  assert (Hnone : copy_errors (calls (copy_loop h (src_files h) d)) = []).
  { apply copy_loop_no_error; [apply src_files_dst_nonempty | | |].
    - apply Forall_forall. intros s Hin. apply list_elem_of_In in Hin.
      rewrite src_files_names in Hin. apply in_map_iff in Hin as (name & <- & Hname).
      split; [apply join_nonempty; apply (names_plain name Hname) | now apply Hfiles].
    - apply Forall_forall. intros s Hin. apply list_elem_of_In in Hin.
      rewrite src_files_names in Hin. apply in_map_iff in Hin as (name & <- & Hname).
      rewrite (dst_of_centos h name (proj1 (names_plain name Hname))).
      now apply Hparents.
    - apply Forall_forall. intros s Hin. apply list_elem_of_In in Hin.
      rewrite src_files_names in Hin. apply in_map_iff in Hin as (name & <- & Hname).
      rewrite (dst_of_centos h name (proj1 (names_plain name Hname))).
      now apply Hfaults. }
  destruct (copy_loop_results h (src_files h) d) as [Hres Hmsg].
  rewrite Hres, Hmsg, Hnone. repeat split.
  intros name Hname.
  pose proof (copy_loop_no_error_all_present (src_files h) d
                (src_files_dst_nonempty h) Hnone) as Hall.
  rewrite <- (dst_of_centos h name (proj1 (names_plain name Hname))).
  apply (proj1 (Forall_forall _ _) Hall). apply list_elem_of_In.
  now apply centos_in_src_files.
Qed.

(** A run of [CopyGrubFiles] that set no result need not be repeated: run
    again on the tree it left, the action makes no call and changes
    nothing. *)
Theorem CopyGrubFiles_second_run_does_nothing (d : fs) :
  system_info_id h = "centos" ->
  results_set (calls (run CopyGrubFiles h d)) = [] ->
  run CopyGrubFiles h (tree_after (run CopyGrubFiles h d))
  = (Returned, tree_after (run CopyGrubFiles h d), []).
Proof.
  intros Hid. unfold run. rewrite !(CopyGrubFiles_run_centos h _ Hid).
  destruct (existsb (os_path_exists d) (src_files h)) eqn:Hany;
    rewrite calls_eq, tree_after_eq; [| discriminate].
  intros Hres.
  rewrite (proj1 (copy_loop_results h (src_files h) d)) in Hres.
  apply map_eq_nil in Hres.
  pose proof (copy_loop_no_error_all_present (src_files h) d
                (src_files_dst_nonempty h) Hres) as Hall.
  assert (Hstill : existsb (os_path_exists (tree_after (copy_loop h (src_files h) d)))
                     (src_files h) = true).
  { apply existsb_exists in Hany as (s & Hin & Hs). apply existsb_exists.
    exists s. split; [exact Hin |].
    rewrite (os_path_exists_same d _ _
               (proj1 (copy_loop_frame h (src_files h) d s (src_files_dst_nonempty h) Hs))).
    exact Hs. }
  rewrite Hstill, (copy_loop_all_present _ _ Hall). reflexivity.
Qed.


End copy_grub_files_runs.

Lemma CopyGrubFiles_sets_no_result_when_copies_succeed_witness :
  system_info_id centos_host = "centos" /\
  calls (run CopyGrubFiles centos_host all_three)
  = [Copy2 "/boot/efi/EFI/centos/grubenv" "/boot/efi/EFI/redhat/grubenv" None;
     Copy2 "/boot/efi/EFI/centos/grub.cfg" "/boot/efi/EFI/redhat/grub.cfg" None;
     Copy2 "/boot/efi/EFI/centos/user.cfg" "/boot/efi/EFI/redhat/user.cfg" None] /\
  results_set (calls (run CopyGrubFiles centos_host all_three)) = [].
Proof.
  split; [reflexivity |]. split; [vm_compute; reflexivity |].
  apply (CopyGrubFiles_sets_no_result_when_copies_succeed centos_host all_three).
  - reflexivity.
  - intros name [<- | [<- | [<- | []]]]; eexists; vm_compute; reflexivity.
  - intros name [<- | [<- | [<- | []]]]; vm_compute; reflexivity.
  - intros name _. reflexivity.
Defined.

Lemma CopyGrubFiles_second_run_does_nothing_witness :
  system_info_id centos_host = "centos" /\
  results_set (calls (run CopyGrubFiles centos_host all_three)) = [] /\
  calls (run CopyGrubFiles centos_host
           (tree_after (run CopyGrubFiles centos_host all_three))) = [].
Proof.
  split; [reflexivity |]. split; [vm_compute; reflexivity |].
  rewrite (CopyGrubFiles_second_run_does_nothing centos_host all_three).
  - reflexivity.
  - reflexivity.
  - vm_compute. reflexivity.
Defined.


(** ** More on RemoveEfiCentos *)

Section remove_efi_centos_effects.
Variable h : Host.

Local Abbreviation centos_dir := (CENTOS_EFIDIR_CANONICAL_PATH h).
Local Abbreviation centos := (os_path.join (CENTOS_EFIDIR_CANONICAL_PATH h)).
Local Abbreviation names := ["grubenv"; "grub.cfg"; "user.cfg"].

Lemma prefix_app (a b : string) : String.prefix a (a +:+ b) = true.
Proof.
  induction a as [|c a IH]; [now destruct b |].
  rewrite app_cons. cbn [String.prefix].
  destruct (ascii_dec c c) as [_ | Hc]; [exact IH | now destruct Hc].
Qed.

Lemma app_empty_r (a : string) : a +:+ "" = a.
Proof. induction a as [|c a IH]; [reflexivity | rewrite app_cons; now rewrite IH]. Qed.

(** A candidate source is an entry of the source EFI directory. *)
Lemma entry_of_centos (name : string) : In name names -> entry_of centos_dir (centos name) = true.
Proof.
  intros Hname. destruct (names_plain name Hname) as (_ & Hrel & Hne).
  unfold entry_of. rewrite (join_relative _ _ Hrel), prefix_app. cbn [andb].
  apply negb_true_iff, String.eqb_neq. intros E.
  rewrite <- (app_empty_r (os_path.as_dir centos_dir)) in E at 2.
  now apply app_cancel_l in E.
Qed.

Lemma listdir_not_empty (d : fs) (p k : string) (n : node) :
  d !! k = Some n -> entry_of p k = true -> listdir d p <> [].
Proof.
  intros Hk Hentry Hnil.
  assert (Hin : In k (listdir d p)).
  { unfold listdir. apply filter_In. split; [| exact Hentry].
    apply (in_map fst _ (k, n)). apply list_elem_of_In.
    now apply elem_of_map_to_list. }
  rewrite Hnil in Hin. destruct Hin.
Qed.

(** [RemoveEfiCentos] after [CopyGrubFiles]: the copy leaves the sources
    where they are, so when any candidate exists at the source before
    [CopyGrubFiles] runs, the removal that follows on the resulting tree
    raises, the directory stays, and the action adds its warning. *)
Theorem RemoveEfiCentos_after_copy_warns (d : fs) (name : string) :
  system_info_id h = "centos" ->
  In name names ->
  os_path_exists d (centos name) = true ->
  let copied := tree_after (run CopyGrubFiles h d) in
  exists err,
    run RemoveEfiCentos h copied
    = (Returned, copied,
       [Rmdir centos_dir (Some err); AddMessage (not_removed_centos_uefi_directory h err)]).
Proof.
  intros Hid Hname Hsrc copied.
  assert (Hkept : copied !! centos name = d !! centos name).
  { apply (CopyGrubFiles_keeps_path h d). exact Hsrc. }
  assert (Hfull : listdir copied centos_dir <> []).
  { destruct (d !! centos name) as [n|] eqn:Hn.
    - apply (listdir_not_empty copied _ (centos name) n Hkept).
      now apply entry_of_centos.
    - unfold os_path_exists in Hsrc. rewrite Hn in Hsrc.
      destruct (centos name); discriminate Hsrc. }
  destruct (os_rmdir_not_empty h copied centos_dir Hfull) as (err & Hrm).
  exists err. unfold run. now rewrite (RemoveEfiCentos_run_centos h copied Hid), Hrm.
Qed.

(** On a centos system [RemoveEfiCentos] removes the source EFI directory
    exactly when it is a directory without entries and the system does not
    refuse; it then removes that one path, touches no other and adds no
    message. When the path does not exist at all, the action adds its
    warning, with "No such file or directory" as the error. *)
Theorem RemoveEfiCentos_removes_only_an_empty_directory (d : fs) :
  system_info_id h = "centos" ->
  let outcome := run RemoveEfiCentos h d in
  ((d !! centos_dir = Some Dir /\ listdir d centos_dir = [] /\
    rmdir_fault h centos_dir = None) <->
   calls outcome = [Rmdir centos_dir None]) /\
  (calls outcome = [Rmdir centos_dir None] ->
   tree_after outcome = delete centos_dir d /\
   tree_after outcome !! centos_dir = None /\
   forall p, p <> centos_dir -> tree_after outcome !! p = d !! p) /\
  (d !! centos_dir = None ->
   calls outcome =
     [Rmdir centos_dir (Some (ENOENT centos_dir));
      AddMessage (not_removed_centos_uefi_directory h (ENOENT centos_dir))] /\
   tree_after outcome = d).
Proof.
  intros Hid outcome. subst outcome. unfold run.
  rewrite (RemoveEfiCentos_run_centos h d Hid). unfold os_rmdir.
  destruct (d !! centos_dir) as [[data|]|] eqn:Hdir.
  - rewrite calls_eq. split; [| split]; [split | |]; try discriminate.
    intros ([=] & _).
  - destruct (listdir d centos_dir) as [|k ks] eqn:Hls.
    + destruct (rmdir_fault h centos_dir) as [err|] eqn:Hfault;
        rewrite calls_eq, ?tree_after_eq.
      * split; [| split]; [split | |]; try discriminate.
        intros (_ & _ & [=]).
      * split; [| split]; [split | |]; try discriminate; auto.
        intros _. split; [reflexivity |]. split; [apply lookup_delete_eq |].
        intros p Hp. now apply lookup_delete_ne.
    + rewrite calls_eq. split; [| split]; [split | |]; try discriminate.
      intros (_ & [=] & _).
  - rewrite calls_eq, tree_after_eq. split; [| split]; [split | |]; try discriminate.
    + intros ([=] & _).
    + intros _. split; reflexivity.
Qed.

End remove_efi_centos_effects.

Lemma RemoveEfiCentos_after_copy_warns_witness :
  system_info_id centos_host = "centos" /\
  os_path_exists all_three "/boot/efi/EFI/centos/grubenv" = true /\
  exists err,
    calls (run RemoveEfiCentos centos_host (tree_after (run CopyGrubFiles centos_host all_three)))
    = [Rmdir "/boot/efi/EFI/centos/" (Some err);
       AddMessage (not_removed_centos_uefi_directory centos_host err)].
Proof.
  split; [reflexivity |]. split; [vm_compute; reflexivity |].
  destruct (RemoveEfiCentos_after_copy_warns centos_host all_three "grubenv")
    as (err & Hrun).
  - reflexivity.
  - now left.
  - vm_compute. reflexivity.
  - exists err. now rewrite Hrun.
Defined.

Lemma RemoveEfiCentos_removes_only_an_empty_directory_witness :
  system_info_id centos_host = "centos" /\
  listdir empty_centos_dir "/boot/efi/EFI/centos/" = [] /\
  tree_after (run RemoveEfiCentos centos_host empty_centos_dir)
  = delete "/boot/efi/EFI/centos/" empty_centos_dir.
Proof.
  split; [reflexivity |]. split; [vm_compute; reflexivity |].
  destruct (RemoveEfiCentos_removes_only_an_empty_directory centos_host empty_centos_dir eq_refl)
    as (_ & Hremoved & _).
  apply Hremoved. vm_compute. reflexivity.
Defined.

(** ** The boot mode *)

(** Only [NewDefaultEfiBin] asks [grub.is_efi()]: the utility check, the
    copy and the removal run the same on a host booted in BIOS mode as on
    one booted in EFI mode, so on a BIOS centos host [CopyGrubFiles] still
    copies, or sets its Error when the source EFI directory holds none of
    the files. *)
Theorem boot_mode_is_read_by_NewDefaultEfiBin_only (a : action) (h : Host) (d : fs)
    (b : bool) :
  a = EfibootmgrUtilityInstalled \/ a = CopyGrubFiles \/ a = RemoveEfiCentos ->
  run a (with_is_efi b h) d = run a h d.
Proof.
  intros [-> | [-> | ->]]; reflexivity.
Qed.

Lemma boot_mode_is_read_by_NewDefaultEfiBin_only_witness :
  is_efi (with_is_efi false centos_host) = false /\
  calls (run NewDefaultEfiBin (with_is_efi false centos_host) ∅) = [] /\
  results_set (calls (run CopyGrubFiles (with_is_efi false centos_host) ∅))
  = [unable_to_find_required_file_for_grub_config
       ["/boot/efi/EFI/centos/grubenv"; "/boot/efi/EFI/centos/grub.cfg"]].
Proof.
  split; [reflexivity |]. split; [reflexivity |].
  rewrite (boot_mode_is_read_by_NewDefaultEfiBin_only CopyGrubFiles centos_host ∅ false).
  - vm_compute. reflexivity.
  - right. now left.
Defined.
